(** * systemd-boot back end of the installer's boot loader module

    A shallow embedding of [pyanaconda/modules/storage/bootloader/systemd.py]
    (class [SYSTEMD]) and the properties of its configuration writer, its
    installer invocation, its target selection and its [write] sequence.

    Python objects are modelled by explicit state passing: one record holds
    the attributes of [self] that the methods read or mutate together with
    the part of the operating system they act on (files, the environment,
    the exit status of external programs) and a trace of the effects carried
    out so far.  Exceptions are an explicit result type.  Logging calls
    ([log.info]) have no effect on any of this and are left out.

    The methods are given twice with the same bodies: first for the run in
    which the operating system carries out every operation, then on a
    platform whose operations can fail and whose programs can change files.
    The first is the second on the platform [benign]. *)

From Stdlib Require Import ZArith Ascii String List.
From stdpp Require Import base option list gmap strings.
Import ListNotations.
Local Open Scope string_scope.
Local Open Scope Z_scope.

(** ** Data model *)

(** A storage device is an opaque handle owned by the storage library; two
    handles are the same device exactly when they are equal (Python compares
    device objects by identity in [in] and [not in]). *)
Definition Device := string.

(** An install target is a [(stage1, stage2)] tuple. *)
Definition InstallTarget := (Device * Device)%type.

(** Exceptions that can leave a method.  [BootLoaderError] is the only class
    the file raises itself; [PyError cls msg] stands for any other class. *)
Inductive exn :=
| BootLoaderError (msg : string)
| PyError (cls msg : string).

Inductive Result (A : Type) :=
| Ok (a : A)
| Raise (e : exn).
Arguments Ok {A} a.
Arguments Raise {A} e.

(** Effects, in the order they happen. *)
Inductive Event :=
| EvRename (src dst : string)
| EvOpen (path : string)
| EvWrite (path data : string)
| EvClose (path : string)
| EvExec (command : string) (argv : list string) (root : string)
         (env : gmap string string)
| EvOsSync
| EvFormatSync (dev : Device) (root : string).

Record State := mkState {
  (* attributes of self *)
  boot_args : list string;          (* self.boot_args._arguments *)
  console : option string;          (* self.console *)
  console_options : option string;  (* self.console_options *)
  stage1_device : Device;
  stage2_device : Device;
  disks : list Device;              (* self.disks, a list mutated in place *)
  (* operating system *)
  fs : gmap string string;          (* regular files: path to content *)
  environ : gmap string string;     (* os.environ *)
  exec_status : string -> Z;        (* exit status of each external program *)
  trace : list Event
}.

Definition set_boot_args (v : list string) (s : State) : State :=
  mkState v (console s) (console_options s) (stage1_device s)
          (stage2_device s) (disks s) (fs s) (environ s) (exec_status s)
          (trace s).

Definition set_disks (v : list Device) (s : State) : State :=
  mkState (boot_args s) (console s) (console_options s) (stage1_device s)
          (stage2_device s) v (fs s) (environ s) (exec_status s) (trace s).

Definition set_fs (v : gmap string string) (s : State) : State :=
  mkState (boot_args s) (console s) (console_options s) (stage1_device s)
          (stage2_device s) (disks s) v (environ s) (exec_status s) (trace s).

Definition emit (ev : Event) (s : State) : State :=
  mkState (boot_args s) (console s) (console_options s) (stage1_device s)
          (stage2_device s) (disks s) (fs s) (environ s) (exec_status s)
          (trace s ++ [ev]).

(** ** State and exception monad *)

Definition M (A : Type) : Type := State -> Result A * State.

Definition ret {A} (a : A) : M A := fun s => (Ok a, s).

Definition bind {A B} (m : M A) (k : A -> M B) : M B :=
  fun s => match m s with
           | (Ok a, s1) => k a s1
           | (Raise e, s1) => (Raise e, s1)
           end.

Definition raise {A} (e : exn) : M A := fun s => (Raise e, s).

(** [try: body finally: fin].  The finally clause runs on both exits of the
    body; when it raises, its exception is the one that propagates. *)
Definition try_finally {A} (body : M A) (fin : M unit) : M A :=
  fun s => match body s with
           | (r, s1) => match fin s1 with
                        | (Ok _, s2) => (r, s2)
                        | (Raise e, s2) => (Raise e, s2)
                        end
           end.

Definition modify (f : State -> State) : M unit := fun s => (Ok tt, f s).

Definition gets {A} (f : State -> A) : M A := fun s => (Ok (f s), s).

#[global] Instance M_ret : MRet M := @ret.
#[global] Instance M_bind : MBind M := fun A B k m => bind m k.

(** Python truthiness of a string-or-None attribute and of an exit status. *)
Definition truthy (o : option string) : bool :=
  match o with
  | Some (String _ _) => true
  | _ => false
  end.

Definition nonzero (rc : Z) : bool := negb (rc =? 0).

Definition nl : string := String "010"%char EmptyString.

(** ** Python library functions used by the class

    The definitions of this part describe each operation as the operating
    system carries it out.  That an operation can instead fail, and that a
    program that runs can change files, is added in the part on the
    platform further down ([attempt] and the definitions ending in [_io]),
    which reuses these definitions for the successful case. *)

(** [str.split(sep)] for a one-character separator. *)
Fixpoint split (sep : ascii) (s : string) : list string :=
  match s with
  | EmptyString => [EmptyString]
  | String c s' =>
      if Ascii.eqb c sep then EmptyString :: split sep s'
      else match split sep s' with
           | h :: t => String c h :: t
           | [] => [String c EmptyString]
           end
  end.

(** [posixpath.normpath]. *)
Definition initial_slashes (path : string) : nat :=
  if String.prefix "/" path then
    if String.prefix "//" path && negb (String.prefix "///" path)
    then 2%nat else 1%nat
  else 0%nat.

Definition normpath_step (slashes : nat) (new_comps : list string)
    (comp : string) : list string :=
  if String.eqb comp "" || String.eqb comp "." then new_comps
  else if negb (String.eqb comp "..")
          || (Nat.eqb slashes 0 && Nat.eqb (length new_comps) 0)
          || (negb (Nat.eqb (length new_comps) 0)
              && String.eqb (List.last new_comps "") "..")
  then new_comps ++ [comp]
  else if negb (Nat.eqb (length new_comps) 0) then removelast new_comps
  else new_comps.

Definition normpath (path : string) : string :=
  if String.eqb path "" then "."
  else
    let slashes := initial_slashes path in
    let comps := fold_left (normpath_step slashes) (split "/" path) [] in
    let path := String.concat "/" comps in
    let path := String.concat "" (repeat "/" slashes) +:+ path in
    if String.eqb path "" then "." else path.

(** [os.access(path, os.R_OK)]: the file exists (permissions are not
    modelled). *)
Definition os_access (path : string) : M bool :=
  gets (fun s => bool_decide (is_Some (fs s !! path))).

(** [os.rename(src, dst)] on regular files: [dst] is replaced. *)
Definition os_rename (src dst : string) : M unit :=
  fun s => match fs s !! src with
           | Some c =>
               (Ok tt, emit (EvRename src dst)
                            (set_fs (<[dst := c]> (delete src (fs s))) s))
           | None => (Raise (PyError "FileNotFoundError" src), s)
           end.

(** [open(path, "w")], [f.write(data)], [f.close()].  A file object is
    identified with its path; opening truncates, writing appends. *)
Definition open_w (path : string) : M string :=
  fun s => (Ok path, emit (EvOpen path) (set_fs (<[path := ""]> (fs s)) s)).

Definition file_write (f data : string) : M unit :=
  modify (fun s =>
    emit (EvWrite f data)
         (set_fs (<[f := default "" (fs s !! f) +:+ data]> (fs s)) s)).

Definition file_close (f : string) : M unit := modify (emit (EvClose f)).

(** [os.sync()]. *)
Definition os_sync : M unit := modify (emit EvOsSync).

(** [self.stage2_device.format.sync(root=...)] of the storage library. *)
Definition format_sync (root : string) : M unit :=
  modify (fun s => emit (EvFormatSync (stage2_device s) root) s).

(** ** Parts of the package that live outside this file *)

(** Modelled from the spec: [Arguments.add] of [bootloader/base.py], the
    class of [self.boot_args], is defined elsewhere in the package.  The
    accumulator is an ordered sequence of tokens and adding a token that is
    already present is a no-op. *)
Definition Arguments_add (token : string) (arguments : list string)
    : list string :=
  if bool_decide (token ∈ arguments) then arguments else arguments ++ [token].

(** Modelled from the spec: [util.execWithRedirect] of [pyanaconda/core] is
    defined elsewhere in the package.  It runs an external program under a
    designated root, scrubs the variables named in [env_prune] from the
    child's environment and returns the exit status.  This is the run in
    which the program starts and leaves the files alone; the other outcomes
    are added by [execWithRedirect_io]. *)
Definition execWithRedirect (command : string) (argv : list string)
    (root : string) (env_prune : list string) : M Z :=
  fun s =>
    let env := foldr delete (environ s) env_prune in
    (Ok (exec_status s command), emit (EvExec command argv root env) s).

(** What [SYSTEMD] reads from its surroundings: the installer configuration
    ([conf.target]) and the attributes of storage devices. *)
Class Surroundings := {
  system_root : string;                 (* conf.target.system_root *)
  physical_root : string;               (* conf.target.physical_root *)
  is_disk : Device -> bool;             (* device.is_disk *)
  disks_of : Device -> list Device      (* device.disks *)
}.

(** The members [SYSTEMD] uses without defining them: they come from its
    base class [BootLoader] of [bootloader/base.py], and are left open here. *)
Class BootLoader := {
  device_map_file : string;             (* self.device_map_file *)
  install : M unit                      (* self.install() *)
}.

(** ** class SYSTEMD *)

Section SYSTEMD.
Context `{Surroundings} `{BootLoader}.

Definition _config_file : string := "loader.conf".
Definition _config_dir : string := "efi/loader/".

Definition config_dir : string := "/boot/" +:+ _config_dir.
Definition config_file : string := config_dir +:+ "/" +:+ _config_file.

(** The two files [write_config] writes and the program it runs. *)
Definition loader_conf_path : string :=
  system_root +:+ "/boot/efi/loader/loader.conf".
Definition cmdline_path : string := system_root +:+ "/etc/kernel/cmdline".
Definition root_arg : string := "root=/dev/mapper/fedora_fedora-root".
Definition merge_script : string := "/usr/sbin/updateloaderentries.sh".

(** [devices.append(d)] guarded by [d not in devices]. *)
Definition append_if_absent (d : Device) (devices : list Device)
    : list Device :=
  if bool_decide (d ∈ devices) then devices else devices ++ [d].

(** The path [write_device_map] works on. *)
Definition map_path : string := normpath (system_root +:+ device_map_file).

(** [self.disks] once [write_device_map] has appended the stage1 device and
    the disks under the stage2 device, and the local [devices] after its
    list comprehension. *)
Definition all_devices (s : State) : list Device :=
  fold_left (fun devices disk => append_if_absent disk devices)
            (disks_of (stage2_device s))
            (append_if_absent (stage1_device s) (disks s)).

Definition map_devices (s : State) : list Device :=
  List.filter is_disk (all_devices s).

Definition write_device_map : M unit :=
  let map_path := normpath (system_root +:+ device_map_file) in
  readable ← os_access map_path;
  (if readable : bool then os_rename map_path (map_path +:+ ".anacbak")
   else ret tt);;
  (* devices = self.disks is an alias: the appends mutate self.disks *)
  modify (fun s => set_disks (append_if_absent (stage1_device s) (disks s)) s);;
  modify (fun s =>
    set_disks (fold_left (fun devices disk => append_if_absent disk devices)
                         (disks_of (stage2_device s)) (disks s)) s);;
  devices ← gets (fun s => List.filter is_disk (disks s));
  if Nat.eqb (length devices) 0 then ret tt
  else ret tt.

Definition write_config_console : M unit :=
  c ← gets console;
  if negb (truthy c) then ret tt
  else
    let console_arg := "console=" +:+ default "" c in
    opts ← gets console_options;
    let console_arg :=
      if truthy opts then console_arg +:+ "," +:+ default "" opts
      else console_arg in
    modify (fun s => set_boot_args (Arguments_add console_arg (boot_args s)) s).

Definition write_config : M unit :=
  write_config_console;;
  let config_path := system_root +:+ "/boot/efi/loader/loader.conf" in
  config ← open_w config_path;
  file_write config ("timeout 3" +:+ nl);;
  file_write config ("#console-mode keep" +:+ nl);;
  file_close config;;
  let config_path := system_root +:+ "/etc/kernel/cmdline" in
  config ← open_w config_path;
  args ← gets (fun s => String.concat " " (boot_args s));
  let args := args +:+ " root=/dev/mapper/fedora_fedora-root" in
  file_write config args;;
  file_close config;;
  rc ← execWithRedirect "/usr/sbin/updateloaderentries.sh" [" "]
                        system_root [];
  if nonzero rc
  then raise (BootLoaderError "failed to write boot loader configuration")
  else ret tt.

Definition install_targets (s : State) : list InstallTarget :=
  let targets : list InstallTarget := [] in
  let stage2_raid := false in
  let targets := (targets ++ [(stage1_device s, stage2_device s)])%list in
  targets.

Definition installbootmgr (args : option (list string)) : M unit :=
  let args := default [] args in
  rc ← execWithRedirect "bootctl" ["install"; "--esp-path=/boot/efi"]
                        system_root ["MALLOC_PERTURB_"];
  if nonzero rc then raise (BootLoaderError "boot loader install failed")
  else ret tt.

(** The statements of [write] before the call of [self.install()]. *)
Definition write_prologue : M unit :=
  write_device_map;;
  format_sync physical_root;;
  os_sync.

Definition write : M unit :=
  try_finally
    (write_device_map;;
     format_sync physical_root;;
     os_sync;;
     install;;
     os_sync;;
     format_sync physical_root)
    (write_config;;
     os_sync;;
     format_sync physical_root).

(** ** Vocabulary of the statements *)

(** Content of the loader descriptor. *)
Definition loader_conf_text : string :=
  "timeout 3" +:+ nl +:+ "#console-mode keep" +:+ nl.

(** The boot arguments joined by single spaces, then a space and the root
    argument. *)
Definition cmdline_text (arguments : list string) : string :=
  String.concat " " arguments +:+ " " +:+ root_arg.

(** The accumulator once [write_config_console] has run. *)
Definition console_args (s : State) : list string :=
  boot_args (snd (write_config_console s)).

(** The effects of one run of [write_config] entered in state [s]. *)
Definition loader_events : list Event :=
  [EvOpen loader_conf_path;
   EvWrite loader_conf_path ("timeout 3" +:+ nl);
   EvWrite loader_conf_path ("#console-mode keep" +:+ nl);
   EvClose loader_conf_path].

Definition cmdline_events (s : State) : list Event :=
  [EvOpen cmdline_path;
   EvWrite cmdline_path (cmdline_text (console_args s));
   EvClose cmdline_path].

Definition merge_event (s : State) : Event :=
  EvExec merge_script [" "] system_root (environ s).

Definition config_events (s : State) : list Event :=
  loader_events ++ cmdline_events s ++ [merge_event s].

(** The flush pair that follows the installer and the configuration writer:
    [os.sync()], then the sync of the stage2 format. *)
Definition flush_pair (s : State) : list Event :=
  [EvOsSync; EvFormatSync (stage2_device s) physical_root].

(** Outcome and final state of [write_config] entered in state [s]. *)
Definition config_result (s : State) : Result unit :=
  if nonzero (exec_status s merge_script)
  then Raise (BootLoaderError "failed to write boot loader configuration")
  else Ok tt.

Definition config_state (s : State) : State :=
  mkState (console_args s) (console s) (console_options s) (stage1_device s)
          (stage2_device s) (disks s)
          (<[cmdline_path := cmdline_text (console_args s)]>
             (<[loader_conf_path := loader_conf_text]> (fs s)))
          (environ s) (exec_status s) (trace s ++ config_events s).

(** Outcome of [write_device_map] entered in state [s]: the rename it
    performs and the state it leaves. *)
Definition backup_path : string := map_path +:+ ".anacbak".

Definition rename_events (s : State) : list Event :=
  match fs s !! map_path with
  | Some _ => [EvRename map_path backup_path]
  | None => []
  end.

Definition device_map_state (s : State) : State :=
  mkState (boot_args s) (console s) (console_options s) (stage1_device s)
          (stage2_device s) (all_devices s)
          (match fs s !! map_path with
           | Some c => <[backup_path := c]> (delete map_path (fs s))
           | None => fs s
           end)
          (environ s) (exec_status s) (trace s ++ rename_events s).

(** The state in which [write] calls [self.install()]. *)
Definition prologue_state (s : State) : State :=
  emit EvOsSync
       (emit (EvFormatSync (stage2_device s) physical_root)
             (device_map_state s)).

(** [os.sync()] followed by the sync of the stage2 format. *)
Definition flushed (s : State) : State :=
  emit (EvFormatSync (stage2_device s) physical_root) (emit EvOsSync s).

(** The state in which the [finally] clause of [write] starts, given the
    outcome [r] and final state [s] of [self.install()]: the two syncs that
    follow the installer run only when it returned. *)
Definition after_install (r : Result unit) (s : State) : State :=
  match r with
  | Ok _ => flushed s
  | Raise _ => s
  end.

Definition flush_after_install (r : Result unit) (s : State) : list Event :=
  match r with
  | Ok _ => flush_pair s
  | Raise _ => []
  end.

(** The flush pair that closes [write], present when the merge script
    exits with status 0. *)
Definition final_flush (s : State) : list Event :=
  if nonzero (exec_status s merge_script) then [] else flush_pair s.

(** Does a trace end with the flush pair, and which events follow the run
    of a given program. *)
Definition ends_with_flush (t : list Event) : bool :=
  match rev t with
  | EvFormatSync _ _ :: EvOsSync :: _ => true
  | _ => false
  end.

Definition is_flush (ev : Event) : bool :=
  match ev with
  | EvOsSync | EvFormatSync _ _ => true
  | _ => false
  end.

Fixpoint after_exec (command : string) (t : list Event) : list Event :=
  match t with
  | [] => []
  | EvExec c _ _ _ :: t' =>
      if String.eqb c command then t' else after_exec command t'
  | _ :: t' => after_exec command t'
  end.

End SYSTEMD.

(** ** A concrete installation, for running the model *)

Module Demo.

(** Two disks under a mirrored stage2 device; [install] is the installer
    invocation of this file. *)
#[export] Instance demo : Surroundings := {|
  system_root := "/mnt/sysroot";
  physical_root := "/mnt/sysimage";
  is_disk := fun d => bool_decide (d = "sda") || bool_decide (d = "sdb");
  disks_of := fun d => if bool_decide (d = "md0") then ["sda"; "sdb"] else [d]
|}.

#[export] Instance demo_base : BootLoader := {|
  device_map_file := "/boot/efi/loader//device.map";
  install := installbootmgr None
|}.

Definition status (bootctl script : Z) (command : string) : Z :=
  if String.eqb command "bootctl" then bootctl
  else if String.eqb command "/usr/sbin/updateloaderentries.sh" then script
  else 0.

Definition state0 (bootctl script : Z) : State :=
  {| boot_args := []; console := None; console_options := None;
     stage1_device := "sda"; stage2_device := "md0"; disks := ["sda"];
     fs := {[ "/mnt/sysroot/boot/efi/loader/device.map" := "(hd0) /dev/sda" ]};
     environ := {[ "MALLOC_PERTURB_" := "204"; "PATH" := "/usr/sbin" ]};
     exec_status := status bootctl script;
     trace := [] |}.

End Demo.

(** ** The other members of class SYSTEMD *)

(** [write_config_images(config)]. *)
Definition write_config_images : M bool := ret true.

(** [stage2_format_types], a property that reads [productName] of
    [pyanaconda.product]. *)
Definition stage2_format_types (productName : string) : list string :=
  if String.prefix "Red Hat " productName
  then ["xfs"; "ext4"; "ext3"; "ext2"]
  else ["ext4"; "ext3"; "ext2"; "btrfs"; "xfs"].

(** Is a character part of a string. *)
Fixpoint contains (c : ascii) (s : string) : bool :=
  match s with
  | EmptyString => false
  | String c' s' => Ascii.eqb c' c || contains c s'
  end.

(** [has_windows] and [is_valid_stage2_device] work on [self.errors] and
    [self.warnings], which no other method of the class touches; they are
    kept beside the rest of the object. *)
Record Checked := mkChecked {
  errors : list string;             (* self.errors *)
  warnings : list string;           (* self.warnings *)
  object : State
}.

Definition V (A : Type) : Type := Checked -> Result A * Checked.

Definition vret {A} (a : A) : V A := fun v => (Ok a, v).

Definition vbind {A B} (m : V A) (k : A -> V B) : V B :=
  fun v => match m v with
           | (Ok a, v1) => k a v1
           | (Raise e, v1) => (Raise e, v1)
           end.

#[global] Instance V_ret : MRet V := @vret.
#[global] Instance V_bind : MBind V := fun A B k m => vbind m k.

Definition set_errors (l : list string) : V unit :=
  fun v => (Ok tt, mkChecked l (warnings v) (object v)).

Definition set_warnings (l : list string) : V unit :=
  fun v => (Ok tt, mkChecked (errors v) l (object v)).

(** The check inherited from [BootLoader], reached through [super()]; it
    may record errors and warnings and is left open. *)
Class Validation := {
  super_is_valid_stage2_device : Device -> bool -> bool -> V bool
}.

Section Checks.
Context `{Validation}.

Definition is_valid_stage2_device (device : Device) (linux non_linux : bool)
    : V bool :=
  valid ← super_is_valid_stage2_device device linux non_linux;
  vret valid.

(** [[d for d in devices if p(d)]] with an effectful test: the devices are
    tested from left to right and an exception ends the loop. *)
Fixpoint comprehension (p : Device -> V bool) (devices : list Device)
    : V (list Device) :=
  match devices with
  | [] => vret []
  | d :: devices' =>
      keep ← p d;
      rest ← comprehension p devices';
      vret (if keep : bool then d :: rest else rest)
  end.

Definition has_windows (devices : list Device) : V bool :=
  (* errors = self.errors[:] and warnings = self.warnings[:] are copies *)
  errors ← (fun v => (Ok (errors v), v));
  warnings ← (fun v => (Ok (warnings v), v));
  ret ← comprehension
          (fun d => is_valid_stage2_device d false true) devices;
  set_errors errors;;
  set_warnings warnings;;
  vret (negb (Nat.eqb (length ret) 0)).

End Checks.

(** ** pyanaconda/isys: setting the system time *)

Module isys.

(** The fields of a [datetime] object that the module reads. *)
Record DateTime := mkDateTime {
  dt_year : Z; dt_month : Z; dt_day : Z;
  dt_hour : Z; dt_minute : Z; dt_second : Z
}.

(** A time zone object, as far as it is used: [tz.utcoffset(dt)], in whole
    seconds. *)
Record TimeZone := mkTimeZone { utcoffset : DateTime -> Z }.

(** [zoneinfo.ZoneInfo(key='UTC')]. *)
Definition UTC : TimeZone := mkTimeZone (fun _ => 0).

(** [datetime.datetime.now(tz)]: the clock, read in a time zone. *)
Class Clock := { now : TimeZone -> DateTime }.

(** The calendar arithmetic of the [datetime] module. *)
Definition _is_leap (y : Z) : bool :=
  (y mod 4 =? 0) && (negb (y mod 100 =? 0) || (y mod 400 =? 0)).

Definition _days_before_year (year : Z) : Z :=
  let y := year - 1 in
  y * 365 + y / 4 - y / 100 + y / 400.

Definition _DAYS_IN_MONTH : list Z :=
  [-1; 31; 28; 31; 30; 31; 30; 31; 31; 30; 31; 30; 31].

Definition _DAYS_BEFORE_MONTH : list Z :=
  [-1; 0; 31; 59; 90; 120; 151; 181; 212; 243; 273; 304; 334].

Definition _days_in_month (year month : Z) : Z :=
  if (month =? 2) && _is_leap year then 29
  else nth (Z.to_nat month) _DAYS_IN_MONTH 0.

Definition _days_before_month (year month : Z) : Z :=
  nth (Z.to_nat month) _DAYS_BEFORE_MONTH 0
  + (if (month >? 2) && _is_leap year then 1 else 0).

Definition _ymd2ord (year month day : Z) : Z :=
  _days_before_year year + _days_before_month year month + day.

Definition between (lo x hi : Z) : bool := (lo <=? x) && (x <=? hi).

(** [datetime.datetime(year, month, day, hour, minute, second, tzinfo=tz)]:
    the fields are checked in this order and the first one out of range
    raises [ValueError]; the texts of the messages are indicative. *)
Definition datetime (year month day hour minute second : Z)
    : Result DateTime :=
  if negb (between 1 year 9999)
  then Raise (PyError "ValueError" "year is out of range")
  else if negb (between 1 month 12)
  then Raise (PyError "ValueError" "month must be in 1..12")
  else if negb (between 1 day (_days_in_month year month))
  then Raise (PyError "ValueError" "day is out of range for month")
  else if negb (between 0 hour 23)
  then Raise (PyError "ValueError" "hour must be in 0..23")
  else if negb (between 0 minute 59)
  then Raise (PyError "ValueError" "minute must be in 0..59")
  else if negb (between 0 second 59)
  then Raise (PyError "ValueError" "second must be in 0..59")
  else Ok (mkDateTime year month day hour minute second).

(** [int(dt.timestamp())] of an aware datetime without microseconds: the
    seconds between the epoch (ordinal 719163, in UTC) and [dt], less the
    offset of its zone. *)
Definition timestamp (dt : DateTime) (tz : TimeZone) : Z :=
  (_ymd2ord (dt_year dt) (dt_month dt) (dt_day dt) - 719163) * 86400
  + dt_hour dt * 3600 + dt_minute dt * 60 + dt_second dt
  - utcoffset tz dt.

(** [set_system_time(secs)]: the call into the C module is recorded in the
    list of the times that were set. *)
Definition set_system_time (secs : Z) (calls : list Z)
    : Result unit * list Z :=
  (Ok tt, (calls ++ [secs])%list).

Section Isys.
Context `{Clock}.

Definition set_system_date_time (year month day hour minute second : option Z)
    (tz : option TimeZone) (calls : list Z) : Result unit * list Z :=
  let utc := UTC in
  let tz := match tz with Some z => z | None => utc end in
  let now := now tz in
  let year := match year with Some y => y | None => dt_year now end in
  let month := match month with Some m => m | None => dt_month now end in
  let day := match day with Some d => d | None => dt_day now end in
  let hour := match hour with Some h => h | None => dt_hour now end in
  let minute := match minute with Some m => m | None => dt_minute now end in
  let second := match second with Some x => x | None => dt_second now end in
  match datetime year month day hour minute second with
  | Raise e => (Raise e, calls)
  | Ok set_date => set_system_time (timestamp set_date tz) calls
  end.

End Isys.

End isys.

(** ** More concrete situations *)

Module Scenes.
Import Demo.

(** A serial console and two boot arguments. *)
Definition state_console : State :=
  {| boot_args := ["ro"; "quiet"]; console := Some "ttyS0";
     console_options := Some "115200n8";
     stage1_device := "sda"; stage2_device := "md0"; disks := ["sda"];
     fs := {[ "/mnt/sysroot/etc/fstab" := "/dev/sda1 /" ]};
     environ := ∅; exec_status := status 0 0; trace := [] |}.

(** Console options without a console (the empty string). *)
Definition state_options_only : State :=
  {| boot_args := ["ro"]; console := Some "";
     console_options := Some "115200n8";
     stage1_device := "sda"; stage2_device := "md0"; disks := ["sda"];
     fs := ∅; environ := ∅; exec_status := status 0 0; trace := [] |}.

(** A device map and an older backup of it. *)
Definition state_backup : State :=
  {| boot_args := []; console := None; console_options := None;
     stage1_device := "sda"; stage2_device := "md0"; disks := [];
     fs := {[ "/mnt/sysroot/boot/efi/loader/device.map" := "new";
              "/mnt/sysroot/boot/efi/loader/device.map.anacbak" := "old" ]};
     environ := ∅; exec_status := status 0 0; trace := [] |}.

(** A check that takes partitions whose name ends in 1 for foreign systems
    and records an error for every other device. *)
#[export] Instance scan_check : Validation := {|
  super_is_valid_stage2_device := fun d linux non_linux v =>
    if String.eqb d "sda1" || String.eqb d "sdb1" then (Ok true, v)
    else (Ok false,
          mkChecked (errors v ++ [d +:+ " holds no system"])%list
                    (warnings v) (object v))
|}.

(** A check that fails on the device [loop0]. *)
Definition failing_check : Validation := {|
  super_is_valid_stage2_device := fun d linux non_linux v =>
    if String.eqb d "loop0"
    then (Raise (PyError "DeviceError" "loop0"),
          mkChecked (errors v ++ ["probing loop0"])%list (warnings v)
                    (object v))
    else (Ok false, v)
|}.

Definition checked0 : Checked :=
  mkChecked ["no boot disk"] ["small ESP"] (state0 0 0).

(** A clock that shows 31 January 2024, 23:59:58, in every zone. *)
#[export] Instance clock_jan31 : isys.Clock := {|
  isys.now := fun _ => isys.mkDateTime 2024 1 31 23 59 58
|}.

End Scenes.

(** ** The methods on an operating system whose operations can fail

    The definitions above describe the run in which the operating system
    carries out every operation and external programs leave the files
    alone.  Below, every operation on the operating system is attempted: it
    can fail with an exception of the system, and an external program that
    runs does to the files what the platform says.  The bodies of the
    methods are the same. *)

Class Platform := {
  (** Does this operation, named by the event it would add, fail in this
      state?  If so: the class and text of the exception and the state the
      failure leaves. *)
  fault : Event -> State -> option (string * string * State);
  (** What running [command argv] under [root] does to the files. *)
  program_effect :
    string -> list string -> string -> gmap string string
    -> gmap string string
}.

(** The platform of the definitions above. *)
Definition benign : Platform := {|
  fault := fun _ _ => None;
  program_effect := fun _ _ _ files => files
|}.

Section Fallible.
Context {Env : Surroundings} {Base : BootLoader} {OS : Platform}.

Definition attempt {A} (ev : Event) (run : M A) : M A :=
  fun s => match fault ev s with
           | Some (cls, msg, s') => (Raise (PyError cls msg), s')
           | None => run s
           end.

Definition os_rename_io (src dst : string) : M unit :=
  attempt (EvRename src dst) (os_rename src dst).

Definition open_io (path : string) : M string :=
  attempt (EvOpen path) (open_w path).

Definition file_write_io (f data : string) : M unit :=
  attempt (EvWrite f data) (file_write f data).

Definition file_close_io (f : string) : M unit :=
  attempt (EvClose f) (file_close f).

Definition os_sync_io : M unit := attempt EvOsSync os_sync.

Definition format_sync_io (root : string) : M unit :=
  fun s => attempt (EvFormatSync (stage2_device s) root) (format_sync root) s.

(** [util.execWithRedirect], as modelled from the spec above, with the two
    further outcomes of a run: the program cannot be started, or it runs and
    changes files. *)
Definition execWithRedirect_io (command : string) (argv : list string)
    (root : string) (env_prune : list string) : M Z :=
  fun s =>
    let env := foldr delete (environ s) env_prune in
    attempt (EvExec command argv root env)
      (fun s0 =>
         (Ok (exec_status s0 command),
          emit (EvExec command argv root env)
               (set_fs (program_effect command argv root (fs s0)) s0))) s.

Definition write_device_map_io : M unit :=
  let map_path := normpath (system_root +:+ device_map_file) in
  readable ← os_access map_path;
  (if readable : bool then os_rename_io map_path (map_path +:+ ".anacbak")
   else ret tt);;
  modify (fun s => set_disks (append_if_absent (stage1_device s) (disks s)) s);;
  modify (fun s =>
    set_disks (fold_left (fun devices disk => append_if_absent disk devices)
                         (disks_of (stage2_device s)) (disks s)) s);;
  devices ← gets (fun s => List.filter is_disk (disks s));
  if Nat.eqb (length devices) 0 then ret tt
  else ret tt.

Definition write_config_io : M unit :=
  write_config_console;;
  let config_path := system_root +:+ "/boot/efi/loader/loader.conf" in
  config ← open_io config_path;
  file_write_io config ("timeout 3" +:+ nl);;
  file_write_io config ("#console-mode keep" +:+ nl);;
  file_close_io config;;
  let config_path := system_root +:+ "/etc/kernel/cmdline" in
  config ← open_io config_path;
  args ← gets (fun s => String.concat " " (boot_args s));
  let args := args +:+ " root=/dev/mapper/fedora_fedora-root" in
  file_write_io config args;;
  file_close_io config;;
  rc ← execWithRedirect_io "/usr/sbin/updateloaderentries.sh" [" "]
                           system_root [];
  if nonzero rc
  then raise (BootLoaderError "failed to write boot loader configuration")
  else ret tt.

Definition installbootmgr_io (args : option (list string)) : M unit :=
  let args := default [] args in
  rc ← execWithRedirect_io "bootctl" ["install"; "--esp-path=/boot/efi"]
                           system_root ["MALLOC_PERTURB_"];
  if nonzero rc then raise (BootLoaderError "boot loader install failed")
  else ret tt.

(** The statements of [write] before the call of [self.install()]. *)
Definition write_prologue_io : M unit :=
  write_device_map_io;;
  format_sync_io physical_root;;
  os_sync_io.

Definition write_io : M unit :=
  try_finally
    (write_device_map_io;;
     format_sync_io physical_root;;
     os_sync_io;;
     install;;
     os_sync_io;;
     format_sync_io physical_root)
    (write_config_io;;
     os_sync_io;;
     format_sync_io physical_root).

(** *** Vocabulary *)

(** The state in which [write_config] starts the merge script when every
    operation on the two files was carried out, and the state the script
    leaves when it runs. *)
Definition written_state (s : State) : State :=
  mkState (console_args s) (console s) (console_options s) (stage1_device s)
          (stage2_device s) (disks s)
          (<[cmdline_path := cmdline_text (console_args s)]>
             (<[loader_conf_path := loader_conf_text]> (fs s)))
          (environ s) (exec_status s)
          (trace s ++ loader_events ++ cmdline_events s).

Definition script_state (s : State) : State :=
  emit (merge_event s)
       (set_fs (program_effect merge_script [" "] system_root
                               (fs (written_state s)))
               (written_state s)).

(** The two syncs that follow the installer and the configuration writer. *)
Definition flush_io : M unit := os_sync_io;; format_sync_io physical_root.

(** The end of the [try] block of [write], given the outcome [r] and final
    state [s] of [self.install()]: the two syncs are attempted only when the
    installer returned. *)
Definition after_install_io (r : Result unit) (s : State)
    : Result unit * State :=
  match r with
  | Ok _ => flush_io s
  | Raise e => (Raise e, s)
  end.

(** The [finally] clause of [write], entered with the outcome of the [try]
    block. *)
Definition finally_io (body : Result unit * State) : Result unit * State :=
  match write_config_io (snd body) with
  | (Raise e, s3) => (Raise e, s3)
  | (Ok _, s3) =>
      match flush_io s3 with
      | (Ok _, s4) => (fst body, s4)
      | (Raise e, s4) => (Raise e, s4)
      end
  end.

End Fallible.

(** Situations in which something fails or a program changes files. *)
Module Outages.
Import Demo.

(** The directory of the command line file is missing: opening the file
    fails and leaves everything as it is. *)
Definition no_kernel_dir : Platform := {|
  fault := fun ev s =>
    match ev with
    | EvOpen path =>
        if String.eqb path "/mnt/sysroot/etc/kernel/cmdline"
        then Some ("FileNotFoundError", path, s) else None
    | _ => None
    end;
  program_effect := fun _ _ _ files => files
|}.

(** Nothing fails, and the merge script writes a loader entry. *)
Definition merging : Platform := {|
  fault := fun _ _ => None;
  program_effect := fun command _ root files =>
    if String.eqb command "/usr/sbin/updateloaderentries.sh"
    then <[root +:+ "/boot/efi/loader/entries/fedora.conf" := "options ro"]>
           files
    else files
|}.

(** The backup name of the device map is taken by a directory: the rename
    fails. *)
Definition backup_is_directory : Platform := {|
  fault := fun ev s =>
    match ev with
    | EvRename _ dst => Some ("IsADirectoryError", dst, s)
    | _ => None
    end;
  program_effect := fun _ _ _ files => files
|}.

End Outages.


(** ** Strings *)

Lemma append_inj_l (p a b : string) : p +:+ a = p +:+ b -> a = b.
Proof.
  induction p as [|c p IH]; simpl; intros Heq; [assumption|].
  injection Heq as Heq. auto.
Qed.

Lemma length_append (a b : string) :
  String.length (a +:+ b) = (String.length a + String.length b)%nat.
Proof. induction a as [|c a IH]; simpl; [reflexivity | now rewrite IH]. Qed.

Lemma append_suffix_ne (a b : string) : b <> "" -> a <> a +:+ b.
Proof.
  intros Hb Heq. apply (f_equal String.length) in Heq.
  rewrite length_append in Heq. destruct b; [congruence | simpl in Heq; lia].
Qed.

(** ** The configuration writer *)

Section ConfigWriter.
Context `{Surroundings}.

Lemma loader_cmdline_ne : loader_conf_path <> cmdline_path.
Proof.
  unfold loader_conf_path, cmdline_path. intros Heq.
  apply append_inj_l in Heq. discriminate.
Qed.

Lemma write_config_console_run s :
  write_config_console s = (Ok tt, set_boot_args (console_args s) s).
Proof.
  unfold console_args, write_config_console. destruct s as [ba c co s1 s2 d f en ex tr].
  unfold mbind, M_bind, bind, gets, modify, ret. simpl.
  destruct (truthy c); simpl; [|reflexivity].
  destruct (truthy co); reflexivity.
Qed.

Lemma write_config_run s :
  write_config s = (config_result s, config_state s).
Proof.
  unfold write_config, mbind, M_bind, bind.
  rewrite write_config_console_run.
  unfold config_result, config_state, config_events, loader_events,
    cmdline_events, merge_event, cmdline_text, loader_conf_text, root_arg,
    merge_script.
  fold loader_conf_path. fold cmdline_path.
  generalize (console_args s) as args. intros args.
  destruct s as [ba c co s1 s2 d f en ex tr].
  cbv beta iota zeta delta [open_w file_write file_close execWithRedirect
    modify gets raise ret set_fs emit set_boot_args boot_args console
    console_options stage1_device stage2_device disks fs environ exec_status
    trace foldr].
  rewrite !lookup_insert_eq. cbn [default].
  rewrite !insert_insert_eq.
  rewrite <- !app_assoc.
  change ("" +:+ String.concat " " args +:+ " root=/dev/mapper/fedora_fedora-root")
    with (String.concat " " args +:+ " " +:+ "root=/dev/mapper/fedora_fedora-root").
  change (("" +:+ "timeout 3" +:+ nl) +:+ "#console-mode keep" +:+ nl)
    with ("timeout 3" +:+ nl +:+ "#console-mode keep" +:+ nl).
  destruct (nonzero _); reflexivity.
Qed.

Lemma console_args_eq s :
  console_args s =
  if truthy (console s) then
    Arguments_add
      (if truthy (console_options s)
       then "console=" +:+ default "" (console s) +:+ ","
              +:+ default "" (console_options s)
       else "console=" +:+ default "" (console s))
      (boot_args s)
  else boot_args s.
Proof.
  unfold console_args, write_config_console.
  destruct s as [ba c co s1 s2 d f en ex tr].
  unfold mbind, M_bind, bind, gets, modify, ret. simpl.
  destruct (truthy c); simpl; [|reflexivity].
  destruct (truthy co); reflexivity.
Qed.

Lemma write_config_fs s :
  fs (snd (write_config s)) !! loader_conf_path = Some loader_conf_text /\
  fs (snd (write_config s)) !! cmdline_path
    = Some (cmdline_text (console_args s)).
Proof.
  rewrite write_config_run. cbn [snd config_state fs]. split.
  - rewrite lookup_insert_ne by (apply not_eq_sym, loader_cmdline_ne).
    apply lookup_insert_eq.
  - apply lookup_insert_eq.
Qed.

Lemma nonzero_true rc : nonzero rc = true <-> rc <> 0.
Proof. unfold nonzero. destruct (Z.eqb_spec rc 0); simpl; split; intros; congruence. Qed.

Lemma config_result_raise s :
  config_result s
    = Raise (BootLoaderError "failed to write boot loader configuration")
  <-> exec_status s merge_script <> 0.
Proof.
  rewrite <- nonzero_true. unfold config_result.
  destruct (nonzero _); split; intros; congruence.
Qed.

Lemma config_result_ok s :
  config_result s = Ok tt <-> exec_status s merge_script = 0.
Proof.
  unfold config_result, nonzero.
  destruct (Z.eqb_spec (exec_status s merge_script) 0); simpl;
    split; intros; congruence.
Qed.

(** C6, as amended.  When the accumulator is empty at the time the command
    line is rendered, the file holds one space followed by the root
    argument: the separator is written whether or not anything precedes
    it. *)
Theorem write_config_empty_args s :
  console_args s = [] ->
  fs (snd (write_config s)) !! cmdline_path = Some (" " +:+ root_arg).
Proof.
  intros Hargs. pose proof (write_config_fs s) as [_ Hc].
  rewrite Hc, Hargs. reflexivity.
Qed.

(** C9.  [write_config] runs the merge script as its last effect, after the
    command line file has been opened, written and closed, and it raises
    [BootLoaderError] with the configuration message exactly when the
    script's exit status is not zero.  The installer invocation never
    raises that message: its own error is of the same class with another
    text. *)
Theorem write_config_merge_script s :
  trace (snd (write_config s))
    = (trace s ++ loader_events ++ cmdline_events s
         ++ [EvExec "/usr/sbin/updateloaderentries.sh" [" "] system_root
                    (environ s)])%list /\
  (fst (write_config s)
     = Raise (BootLoaderError "failed to write boot loader configuration")
   <-> exec_status s "/usr/sbin/updateloaderentries.sh" <> 0) /\
  (fst (write_config s) = Ok tt
   <-> exec_status s "/usr/sbin/updateloaderentries.sh" = 0) /\
  (forall args s0,
     fst (installbootmgr args s0) = Ok tt \/
     fst (installbootmgr args s0)
       = Raise (BootLoaderError "boot loader install failed")) /\
  "failed to write boot loader configuration" <> "boot loader install failed".
Proof.
  rewrite write_config_run. cbn [fst snd].
  split; [reflexivity|].
  split; [apply config_result_raise|].
  split; [apply config_result_ok|].
  split; [|discriminate].
  intros args s0. unfold installbootmgr, mbind, M_bind, bind, execWithRedirect.
  destruct (nonzero _); [right | left]; reflexivity.
Qed.

(** C10.  Whenever [write_config] raises the merge script error, both files
    already hold their new contents in the state it leaves behind. *)
Theorem write_config_not_atomic s :
  fst (write_config s)
    = Raise (BootLoaderError "failed to write boot loader configuration") ->
  fs (snd (write_config s)) !! loader_conf_path = Some loader_conf_text /\
  fs (snd (write_config s)) !! cmdline_path
    = Some (cmdline_text (console_args s)).
Proof. intros _. apply write_config_fs. Qed.

(** C8.  The installer invocation runs [bootctl install
    --esp-path=/boot/efi] once under the target root, in an environment
    from which [MALLOC_PERTURB_] has been removed, touches no file, and
    raises [BootLoaderError] with the install message exactly when the exit
    status is not zero. *)
Theorem installbootmgr_spec args s :
  let r := fst (installbootmgr args s) in
  let s' := snd (installbootmgr args s) in
  let child_env := delete "MALLOC_PERTURB_" (environ s) in
  trace s'
    = (trace s ++ [EvExec "bootctl" ["install"; "--esp-path=/boot/efi"]
                          system_root child_env])%list /\
  child_env !! "MALLOC_PERTURB_" = None /\
  fs s' = fs s /\
  (r = Raise (BootLoaderError "boot loader install failed")
   <-> exec_status s "bootctl" <> 0) /\
  (r = Ok tt <-> exec_status s "bootctl" = 0).
Proof.
  cbv zeta. unfold installbootmgr, mbind, M_bind, bind, execWithRedirect.
  cbn [foldr]. rewrite <- nonzero_true.
  assert (Hz : exec_status s "bootctl" = 0 <-> nonzero (exec_status s "bootctl") = false).
  { unfold nonzero. destruct (Z.eqb_spec (exec_status s "bootctl") 0);
      simpl; split; intros; congruence. }
  rewrite Hz.
  destruct (nonzero _); cbn [fst snd raise ret emit trace fs];
    (split; [reflexivity|]); (split; [apply lookup_delete_eq|]);
    (split; [reflexivity|]); split; split; intros; congruence.
Qed.

End ConfigWriter.

(** ** The device map and the write sequence *)

Section Orchestrator.
Context `{Surroundings} `{BootLoader}.

Lemma write_device_map_run s :
  write_device_map s = (Ok tt, device_map_state s).
Proof.
  unfold write_device_map, device_map_state, rename_events, all_devices,
    backup_path.
  fold map_path. generalize map_path as mp. intros mp.
  destruct s as [ba c co s1 s2 d f en ex tr].
  cbv beta iota zeta delta [mbind M_bind bind os_access os_rename modify gets
    ret set_fs set_disks emit boot_args console console_options stage1_device
    stage2_device disks fs environ exec_status trace].
  destruct (f !! mp) as [content|] eqn:Hmp.
  - rewrite bool_decide_eq_true_2 by eauto.
    cbv beta iota. rewrite Hmp.
    cbv beta iota zeta delta [boot_args console console_options
      stage1_device stage2_device disks fs environ exec_status trace].
    destruct (Nat.eqb _ 0%nat); reflexivity.
  - rewrite bool_decide_eq_false_2 by (intros [? ?]; congruence).
    cbv beta iota zeta delta [boot_args console console_options
      stage1_device stage2_device disks fs environ exec_status trace].
    rewrite app_nil_r.
    destruct (Nat.eqb _ 0%nat); reflexivity.
Qed.

Lemma write_prologue_run s :
  write_prologue s = (Ok tt, prologue_state s).
Proof.
  unfold write_prologue, mbind, M_bind, bind.
  rewrite write_device_map_run. reflexivity.
Qed.

Lemma write_run s r1 s1 :
  install (snd (write_prologue s)) = (r1, s1) ->
  write s = match config_result (after_install r1 s1) with
            | Ok _ => (r1, flushed (config_state (after_install r1 s1)))
            | Raise e => (Raise e, config_state (after_install r1 s1))
            end.
Proof.
  rewrite write_prologue_run. cbn [snd]. intros Hinst.
  unfold write, try_finally, mbind, M_bind, bind.
  rewrite write_device_map_run.
  unfold format_sync at 1. unfold os_sync at 1. unfold modify at 1 2.
  change (emit EvOsSync _) with (prologue_state s). rewrite Hinst.
  destruct r1 as [[]|e1]; cbn [after_install].
  - unfold os_sync at 1. unfold format_sync at 1. unfold modify at 1 2.
    change (emit (EvFormatSync _ _) (emit EvOsSync s1)) with (flushed s1).
    rewrite write_config_run.
    destruct (config_result (flushed s1)) as [[]|e]; reflexivity.
  - rewrite write_config_run.
    destruct (config_result s1) as [[]|e]; reflexivity.
Qed.

Lemma console_args_after_install r s :
  console_args (after_install r s) = console_args s.
Proof. rewrite !console_args_eq. destruct r; reflexivity. Qed.

Lemma config_events_after_install r s :
  config_events (after_install r s) = config_events s.
Proof.
  unfold config_events, cmdline_events, merge_event.
  rewrite console_args_after_install. destruct r; reflexivity.
Qed.

Lemma config_result_after_install r s :
  config_result (after_install r s) = config_result s.
Proof. destruct r; reflexivity. Qed.

Lemma trace_after_install r s :
  trace (after_install r s) = (trace s ++ flush_after_install r s)%list.
Proof.
  destruct r; cbn [after_install flush_after_install flushed emit trace].
  - now rewrite <- app_assoc.
  - now rewrite app_nil_r.
Qed.

Lemma write_trace s r1 s1 :
  install (snd (write_prologue s)) = (r1, s1) ->
  trace (snd (write s))
    = (trace s1 ++ flush_after_install r1 s1 ++ config_events s1
         ++ final_flush s1)%list.
Proof.
  intros Hinst. rewrite (write_run _ _ _ Hinst).
  rewrite config_result_after_install. unfold final_flush, config_result.
  destruct (nonzero _); cbn [snd flushed emit config_state trace];
    rewrite trace_after_install, config_events_after_install.
  - now rewrite app_nil_r, <- app_assoc.
  - unfold flush_pair.
    replace (stage2_device (config_state (after_install r1 s1)))
      with (stage2_device s1) by (destruct r1; reflexivity).
    now rewrite <- !app_assoc.
Qed.

Lemma map_backup_ne : map_path <> backup_path.
Proof. apply append_suffix_ne. discriminate. Qed.

Lemma write_device_map_backup s content :
  fs s !! map_path = Some content ->
  fs (snd (write_device_map s)) !! backup_path = Some content /\
  fs (snd (write_device_map s)) !! map_path = None.
Proof.
  intros Hmp. rewrite write_device_map_run.
  cbn [snd device_map_state fs]. rewrite Hmp. split.
  - apply lookup_insert_eq.
  - rewrite lookup_insert_ne by (apply not_eq_sym, map_backup_ne).
    apply lookup_delete_eq.
Qed.

Lemma install_targets_primary s :
  install_targets s = [(stage1_device s, stage2_device s)].
Proof. reflexivity. Qed.

(** C3.  When the installer raises and [write_config], run from the state
    the installer left, raises as well, [write] raises the exception of
    [write_config]; the installer's exception does not reach the caller. *)
Theorem write_config_error_masks s e1 s1 e2 s2 :
  install (snd (write_prologue s)) = (Raise e1, s1) ->
  write_config s1 = (Raise e2, s2) ->
  write s = (Raise e2, s2).
Proof.
  intros Hinst Hcfg. rewrite (write_run _ _ _ Hinst).
  cbn [after_install]. rewrite write_config_run in Hcfg.
  injection Hcfg as Hr Hs. rewrite Hr, Hs. reflexivity.
Qed.

(** C4, as amended.  The stage2 format sync and [os.sync()] always precede
    the installer.  The pair after the installer, which is also the pair
    before [write_config], occurs when the installer returns and is skipped
    when it raises; the pair after [write_config] occurs when the merge
    script exits with status 0 and is skipped when [write_config] raises. *)
Theorem write_flush_bracket s r1 s1 :
  install (snd (write_prologue s)) = (r1, s1) ->
  let rc := exec_status s1 "/usr/sbin/updateloaderentries.sh" in
  let flush := [EvOsSync; EvFormatSync (stage2_device s1) physical_root] in
  fst (write_prologue s) = Ok tt /\
  trace (snd (write_prologue s))
    = (trace s ++ rename_events s
         ++ [EvFormatSync (stage2_device s) physical_root; EvOsSync])%list /\
  trace (snd (write s))
    = (trace s1
         ++ match r1 with Ok _ => flush | Raise _ => [] end
         ++ config_events s1
         ++ (if nonzero rc then [] else flush))%list.
Proof.
  intros Hinst. cbv zeta. split; [|split].
  - now rewrite write_prologue_run.
  - rewrite write_prologue_run.
    cbn [snd prologue_state device_map_state emit trace].
    now rewrite <- !app_assoc.
  - rewrite (write_trace _ _ _ Hinst). destruct r1; reflexivity.
Qed.

End Orchestrator.

(** ** Further properties of the configuration writer and the device map *)

Lemma split_no_sep (c : ascii) (s : string) :
  contains c s = false -> split c s = [s].
Proof.
  induction s as [|a s IH]; simpl; [reflexivity|].
  intros Hc. apply orb_false_iff in Hc as [Ha Hs].
  rewrite Ha, (IH Hs). reflexivity.
Qed.

Lemma split_app (c : ascii) (h rest : string) :
  contains c h = false ->
  split c (h +:+ String c rest) = h :: split c rest.
Proof.
  induction h as [|a h IH]; simpl.
  - intros _. now rewrite Ascii.eqb_refl.
  - intros Hc. apply orb_false_iff in Hc as [Ha Hh].
    rewrite Ha, (IH Hh). reflexivity.
Qed.

Lemma split_concat (c : ascii) (l : list string) :
  l <> [] ->
  Forall (fun t => contains c t = false) l ->
  split c (String.concat (String c EmptyString) l) = l.
Proof.
  induction l as [|x l IH]; [congruence|].
  intros _ Hall. inversion Hall as [|? ? Hx Hl]; subst.
  destruct l as [|y l].
  - simpl. now apply split_no_sep.
  - change (String.concat (String c EmptyString) (x :: y :: l))
      with (x +:+ String c (String.concat (String c EmptyString) (y :: l))).
    rewrite (split_app _ _ _ Hx), IH; [reflexivity | discriminate | exact Hl].
Qed.

Lemma append_assoc3 (a b c : string) : (a +:+ b) +:+ c = a +:+ b +:+ c.
Proof.
  induction a as [|ch a IH]; [reflexivity|].
  change (String ch ((a +:+ b) +:+ c) = String ch (a +:+ b +:+ c)).
  now f_equal.
Qed.

Lemma concat_snoc (sep : string) (l : list string) (x : string) :
  l <> [] ->
  String.concat sep (l ++ [x]) = String.concat sep l +:+ sep +:+ x.
Proof.
  induction l as [|a l IH]; [congruence|]. intros _.
  destruct l as [|b l]; [reflexivity|].
  change (String.concat sep ((a :: b :: l) ++ [x]))
    with (a +:+ sep +:+ String.concat sep ((b :: l) ++ [x])).
  rewrite IH by discriminate.
  change (String.concat sep (a :: b :: l))
    with (a +:+ sep +:+ String.concat sep (b :: l)).
  now rewrite !append_assoc3.
Qed.

Section MoreConfig.
Context `{Surroundings} `{BootLoader}.

(** X2.  When the accumulator is not empty and none of its tokens contains
    a space, splitting the written command line at the spaces gives back the
    tokens in their order, followed by the root argument. *)
Theorem write_config_cmdline_tokens s :
  console_args s <> [] ->
  Forall (fun t => contains " " t = false) (console_args s) ->
  split " " <$> fs (snd (write_config s)) !! cmdline_path
    = Some (console_args s ++ [root_arg])%list.
Proof.
  intros Hne Hall. destruct (write_config_fs s) as [_ Hc]. rewrite Hc.
  cbn [fmap option_fmap option_map]. f_equal. unfold cmdline_text.
  rewrite <- concat_snoc by exact Hne.
  apply split_concat.
  - destruct (console_args s); [congruence | discriminate].
  - apply Forall_app. split; [exact Hall|].
    constructor; [reflexivity | constructor].
Qed.

(** X3.  Without a console ([None] or the empty string) the console options
    play no part: the accumulator is left as it was and is written as it
    is. *)
Theorem write_config_without_console s :
  truthy (console s) = false ->
  boot_args (snd (write_config s)) = boot_args s /\
  fs (snd (write_config s)) !! cmdline_path
    = Some (String.concat " " (boot_args s) +:+ " " +:+ root_arg).
Proof.
  intros Hc. destruct (write_config_fs s) as [_ Hfs].
  assert (Hargs : console_args s = boot_args s)
    by (rewrite console_args_eq, Hc; reflexivity).
  rewrite Hfs, write_config_run. cbn [snd config_state boot_args].
  rewrite Hargs. split; reflexivity.
Qed.

(** X4.  With a console [c], the token [console=c], extended by a comma and
    the options when there are any, is in the accumulator after
    [write_config], every token that was there before is still there, and
    the token is part of the written command line's arguments. *)
Theorem write_config_console_token s c :
  console s = Some c ->
  c <> "" ->
  let token := if truthy (console_options s)
               then "console=" +:+ c +:+ "," +:+ default "" (console_options s)
               else "console=" +:+ c in
  In token (boot_args (snd (write_config s))) /\
  (forall t, In t (boot_args s) -> In t (boot_args (snd (write_config s)))) /\
  fs (snd (write_config s)) !! cmdline_path
    = Some (cmdline_text (boot_args (snd (write_config s)))).
Proof.
  intros Hc Hne. cbv zeta. destruct (write_config_fs s) as [_ Hfs].
  rewrite Hfs, write_config_run. cbn [snd config_state boot_args].
  rewrite console_args_eq, Hc.
  assert (Ht : truthy (Some c) = true) by (destruct c; [congruence | reflexivity]).
  rewrite Ht. cbn [default]. unfold Arguments_add.
  split; [|split; [|reflexivity]].
  - case_bool_decide as Hin.
    + now apply list_elem_of_In.
    + apply in_or_app. right. now left.
  - intros t Hin. case_bool_decide; [exact Hin|].
    apply in_or_app. now left.
Qed.

End MoreConfig.

Section MoreDeviceMap.
Context `{Surroundings} `{BootLoader}.

Lemma append_if_absent_spec (d : Device) (l : list Device) :
  (d ∈ l /\ append_if_absent d l = l) \/
  ((d ∉ l) /\ append_if_absent d l = (l ++ [d])%list).
Proof.
  unfold append_if_absent. case_bool_decide; [left | right]; auto.
Qed.

Lemma fold_absent_spec (ds l : list Device) :
  let r := fold_left (fun devices disk => append_if_absent disk devices) ds l in
  (exists added, r = (l ++ added)%list /\ forall d, d ∈ added -> d ∈ ds) /\
  (forall d, d ∈ ds -> d ∈ r) /\
  (NoDup l -> NoDup r).
Proof.
  cbv zeta. revert l. induction ds as [|x ds IH]; intros l; simpl.
  - split; [|split].
    + exists []. split; [now rewrite app_nil_r | intros d Hd; inversion Hd].
    + intros d Hd. inversion Hd.
    + auto.
  - destruct (IH (append_if_absent x l)) as ((added & Hr & Hsub) & Hcov & Hnd).
    destruct (append_if_absent_spec x l) as [[Hin Heq] | [Hnin Heq]];
      rewrite Heq in *.
    + split; [|split].
      * exists added. split; [exact Hr|]. intros d Hd. right. auto.
      * intros d Hd. apply elem_of_cons in Hd as [-> | Hd]; [|auto].
        rewrite Hr. apply elem_of_app. now left.
      * exact Hnd.
    + split; [|split].
      * exists (x :: added). split.
        -- rewrite Hr, <- app_assoc. reflexivity.
        -- intros d Hd. apply elem_of_cons in Hd as [-> | Hd];
             [left | right; auto].
      * intros d Hd. apply elem_of_cons in Hd as [-> | Hd]; [|auto].
        rewrite Hr. apply elem_of_app. left. apply elem_of_app. right.
        now left.
      * intros Hl. apply Hnd. apply NoDup_app. split; [exact Hl|].
        split; [|apply NoDup_singleton].
        intros y Hy Hy'. apply list_elem_of_singleton in Hy' as ->. auto.
Qed.

Lemma fold_absent_id (ds l : list Device) :
  (forall d, d ∈ ds -> d ∈ l) ->
  fold_left (fun devices disk => append_if_absent disk devices) ds l = l.
Proof.
  induction ds as [|x ds IH]; intros Hsub; simpl; [reflexivity|].
  destruct (append_if_absent_spec x l) as [[_ Heq] | [Hnin _]].
  - rewrite Heq. apply IH. intros d Hd. apply Hsub. now right.
  - exfalso. apply Hnin, Hsub. now left.
Qed.

Lemma all_devices_spec s :
  (exists added,
     all_devices s = (disks s ++ added)%list /\
     forall d, d ∈ added ->
               d = stage1_device s \/ d ∈ disks_of (stage2_device s)) /\
  stage1_device s ∈ all_devices s /\
  (forall d, d ∈ disks_of (stage2_device s) -> d ∈ all_devices s) /\
  (NoDup (disks s) -> NoDup (all_devices s)).
Proof.
  unfold all_devices.
  destruct (fold_absent_spec (disks_of (stage2_device s))
              (append_if_absent (stage1_device s) (disks s)))
    as ((added & Hr & Hsub) & Hcov & Hnd).
  cbv zeta in *. rewrite Hr.
  destruct (append_if_absent_spec (stage1_device s) (disks s))
    as [[Hin Heq] | [Hnin Heq]]; rewrite Heq in *.
  - split; [|split; [|split]].
    + exists added. split; [reflexivity|]. intros d Hd. right. auto.
    + apply elem_of_app. now left.
    + intros d Hd. rewrite <- Hr. auto.
    + intros Hl. rewrite <- Hr. auto.
  - split; [|split; [|split]].
    + exists (stage1_device s :: added). split.
      * now rewrite <- app_assoc.
      * intros d Hd. apply elem_of_cons in Hd as [-> | Hd];
          [left; reflexivity | right; auto].
    + apply elem_of_app. left. apply elem_of_app. right. now left.
    + intros d Hd. rewrite <- Hr. auto.
    + intros Hl. rewrite <- Hr. apply Hnd. apply NoDup_app.
      split; [exact Hl|]. split; [|apply NoDup_singleton].
      intros y Hy Hy'. apply list_elem_of_singleton in Hy' as ->. auto.
Qed.

(** X6.  Without a file at the device map path [write_device_map] renames
    nothing: the files and the trace of effects are unchanged. *)
Theorem write_device_map_no_file s :
  fs s !! map_path = None ->
  fs (snd (write_device_map s)) = fs s /\
  trace (snd (write_device_map s)) = trace s.
Proof.
  intros Hmp. rewrite write_device_map_run.
  cbn [snd device_map_state fs trace]. unfold rename_events. rewrite Hmp.
  split; [reflexivity | apply app_nil_r].
Qed.

(** X7.  [write_device_map] mutates [self.disks] through its alias: after
    the call the list starts with the disks it held before, in their order,
    contains the stage1 device and every disk under the stage2 device, and
    holds nothing else. *)
Theorem write_device_map_disks s :
  let after := disks (snd (write_device_map s)) in
  (exists added,
     after = (disks s ++ added)%list /\
     forall d, d ∈ added ->
               d = stage1_device s \/ d ∈ disks_of (stage2_device s)) /\
  stage1_device s ∈ after /\
  (forall d, d ∈ disks_of (stage2_device s) -> d ∈ after).
Proof.
  cbv zeta. rewrite write_device_map_run. cbn [snd device_map_state disks].
  destruct (all_devices_spec s) as (Hpre & Hs1 & Hs2 & _). auto.
Qed.

(** X8.  [write_device_map] appends a device only when it is absent: a
    list of disks without duplicates stays without duplicates, even when
    the stage2 device reports a disk twice. *)
Theorem write_device_map_nodup s :
  NoDup (disks s) ->
  NoDup (disks (snd (write_device_map s))).
Proof.
  intros Hnd. rewrite write_device_map_run. cbn [snd device_map_state disks].
  now apply all_devices_spec.
Qed.

Lemma device_map_state_no_file s :
  fs (device_map_state s) !! map_path = None.
Proof.
  cbn [device_map_state fs]. destruct (fs s !! map_path) eqn:Hmp.
  - rewrite lookup_insert_ne by (apply not_eq_sym, map_backup_ne).
    apply lookup_delete_eq.
  - exact Hmp.
Qed.

Lemma all_devices_idem s :
  all_devices (device_map_state s) = all_devices s.
Proof.
  destruct (all_devices_spec s) as (_ & Hs1 & Hs2 & _).
  unfold all_devices at 1.
  cbn [device_map_state disks stage1_device stage2_device].
  destruct (append_if_absent_spec (stage1_device s) (all_devices s))
    as [[_ Heq] | [Hnin _]]; [|contradiction].
  rewrite Heq. now apply fold_absent_id.
Qed.

(** X9.  A second call of [write_device_map] changes nothing: the first
    call has moved the device map away and completed [self.disks], so the
    backup is not overwritten and no device is appended twice. *)
Theorem write_device_map_twice s :
  snd (write_device_map (snd (write_device_map s)))
    = snd (write_device_map s).
Proof.
  rewrite !write_device_map_run. cbn [snd].
  pose proof (device_map_state_no_file s) as Hnone.
  pose proof (all_devices_idem s) as Hall.
  unfold device_map_state at 1. unfold rename_events.
  rewrite Hnone, Hall, app_nil_r.
  reflexivity.
Qed.

(** X10.  An older backup does not survive: when the device map and a
    backup of it both exist, the rename replaces the backup by the device
    map's content. *)
Theorem write_device_map_replaces_backup s content old :
  fs s !! map_path = Some content ->
  fs s !! backup_path = Some old ->
  content <> old ->
  fs (snd (write_device_map s)) !! backup_path = Some content /\
  fs (snd (write_device_map s)) !! backup_path <> Some old /\
  fs (snd (write_device_map s)) !! map_path = None.
Proof.
  intros Hmp _ Hne.
  destruct (write_device_map_backup s content Hmp) as [Hb Hm].
  rewrite Hb. split; [reflexivity|]. split; [congruence | exact Hm].
Qed.

End MoreDeviceMap.

(** ** Validation of stage2 devices *)

Section MoreChecks.
Context `{Validation}.

Lemma is_valid_stage2_device_inherited device linux non_linux v :
  is_valid_stage2_device device linux non_linux v
    = super_is_valid_stage2_device device linux non_linux v.
Proof.
  unfold is_valid_stage2_device, mbind, V_bind, vbind, vret.
  destruct (super_is_valid_stage2_device device linux non_linux v)
    as [[valid | e] v1]; reflexivity.
Qed.

Lemma comprehension_app p ds1 ds2 v kept v1 :
  comprehension p ds1 v = (Ok kept, v1) ->
  comprehension p (ds1 ++ ds2) v
    = match comprehension p ds2 v1 with
      | (Ok rest, v2) => (Ok (kept ++ rest)%list, v2)
      | (Raise e, v2) => (Raise e, v2)
      end.
Proof.
  revert v kept v1. induction ds1 as [|d ds1 IH]; intros v kept v1 Hrun.
  - injection Hrun as <- <-. simpl.
    destruct (comprehension p ds2 v) as [[rest | e] v2]; reflexivity.
  - simpl in *. unfold mbind, V_bind, vbind, vret in *.
    destruct (p d v) as [[keep | e] v0]; [|discriminate].
    destruct (comprehension p ds1 v0) as [[rest1 | e] v1'] eqn:Hrest;
      [|discriminate].
    injection Hrun as <- <-.
    rewrite (IH _ _ _ Hrest).
    destruct (comprehension p ds2 v1') as [[rest | e] v2];
      [|reflexivity].
    destruct keep; reflexivity.
Qed.

Lemma has_windows_run devices v :
  has_windows devices v
    = match comprehension (fun d => is_valid_stage2_device d false true)
                          devices v with
      | (Ok ret, v1) =>
          (Ok (negb (Nat.eqb (length ret) 0)),
           mkChecked (errors v) (warnings v) (object v1))
      | (Raise e, v1) => (Raise e, v1)
      end.
Proof.
  unfold has_windows, mbind, V_bind, vbind, vret, set_errors, set_warnings.
  destruct (comprehension _ devices v) as [[ret | e] v1]; reflexivity.
Qed.

(** X13.  Whenever [has_windows] returns, [self.errors] and
    [self.warnings] are what they were before the call, whatever the
    validation recorded in them. *)
Theorem has_windows_restores devices v found :
  fst (has_windows devices v) = Ok found ->
  errors (snd (has_windows devices v)) = errors v /\
  warnings (snd (has_windows devices v)) = warnings v.
Proof.
  rewrite has_windows_run.
  destruct (comprehension _ devices v) as [[ret | e] v1]; [|discriminate].
  intros _. split; reflexivity.
Qed.

(** X14.  When the validation raises on a device, after the devices before
    it were tested, [has_windows] raises the same exception and restores
    nothing: the object is left as the failed validation left it. *)
Theorem has_windows_raise devices1 device devices2 v kept v1 e v2 :
  comprehension (fun d => is_valid_stage2_device d false true) devices1 v
    = (Ok kept, v1) ->
  super_is_valid_stage2_device device false true v1 = (Raise e, v2) ->
  has_windows (devices1 ++ device :: devices2) v = (Raise e, v2).
Proof.
  intros Hpre Hfail. rewrite has_windows_run.
  rewrite (comprehension_app _ _ _ _ _ _ Hpre).
  cbn [comprehension]. unfold mbind at 1. unfold V_bind at 1.
  unfold vbind at 1.
  rewrite is_valid_stage2_device_inherited, Hfail. reflexivity.
Qed.

(** X15.  When the validation always returns and its verdict depends on
    the device alone, [has_windows] returns whether some device of the list
    is valid; for the empty list that is [False]. *)
Theorem has_windows_exists (valid : Device -> bool) devices v :
  (forall d v0, fst (super_is_valid_stage2_device d false true v0)
                = Ok (valid d)) ->
  fst (has_windows devices v) = Ok (existsb valid devices).
Proof.
  intros Hpure. rewrite has_windows_run.
  assert (Hrun : forall ds v0,
            fst (comprehension
                   (fun d => is_valid_stage2_device d false true) ds v0)
            = Ok (List.filter valid ds)).
  { induction ds as [|d ds IH]; intros v0; [reflexivity|].
    cbn [comprehension]. unfold mbind, V_bind, vbind, vret.
    rewrite is_valid_stage2_device_inherited.
    specialize (Hpure d v0).
    destruct (super_is_valid_stage2_device d false true v0) as [r v1].
    cbn [fst] in Hpure. subst r.
    specialize (IH v1).
    destruct (comprehension _ ds v1) as [r v2]. cbn [fst] in IH. subst r.
    cbn [fst List.filter]. destruct (valid d); reflexivity. }
  specialize (Hrun devices v).
  destruct (comprehension _ devices v) as [r v1]. cbn [fst] in Hrun. subst r.
  cbn [fst]. f_equal.
  induction devices as [|d ds IH]; [reflexivity|].
  cbn [List.filter existsb]. destruct (valid d); [reflexivity | exact IH].
Qed.

End MoreChecks.

(** X16.  Whatever the product, the stage2 format types are listed without
    repetition and include xfs, ext4, ext3 and ext2; btrfs is among them
    exactly when the product name does not start with "Red Hat ". *)
Theorem stage2_format_types_spec (productName : string) :
  NoDup (stage2_format_types productName) /\
  (forall t, In t ["xfs"; "ext4"; "ext3"; "ext2"] ->
             In t (stage2_format_types productName)) /\
  (In "btrfs" (stage2_format_types productName)
   <-> String.prefix "Red Hat " productName = false).
Proof.
  unfold stage2_format_types.
  destruct (String.prefix "Red Hat " productName).
  - split; [|split].
    + apply (bool_decide_unpack _). vm_compute. exact I.
    + intros t Ht. exact Ht.
    + split; [|discriminate].
      intros Hin. simpl in Hin.
      repeat (destruct Hin as [Hin | Hin]; [discriminate|]). destruct Hin.
  - split; [|split].
    + apply (bool_decide_unpack _). vm_compute. exact I.
    + intros t Ht. simpl in *.
      destruct Ht as [<- | [<- | [<- | [<- | []]]]]; tauto.
    + split; [reflexivity|]. intros _. simpl. tauto.
Qed.

(** ** Setting the system time *)

Section MoreIsys.
Context `{isys.Clock}.

Lemma between_true lo x hi : isys.between lo x hi = true <-> lo <= x <= hi.
Proof. unfold isys.between. rewrite andb_true_iff, !Z.leb_le. tauto. Qed.

Lemma datetime_ok_iff y m d h mi s dt :
  isys.datetime y m d h mi s = Ok dt <->
  (1 <= y <= 9999 /\ 1 <= m <= 12 /\ 1 <= d <= isys._days_in_month y m /\
   0 <= h <= 23 /\ 0 <= mi <= 59 /\ 0 <= s <= 59) /\
  dt = isys.mkDateTime y m d h mi s.
Proof.
  unfold isys.datetime. rewrite <- !between_true.
  destruct (isys.between 1 y 9999), (isys.between 1 m 12),
    (isys.between 1 d _), (isys.between 0 h 23), (isys.between 0 mi 59),
    (isys.between 0 s 59); simpl;
    (split; [intros Heq; try discriminate; injection Heq as <-; tauto
            | intros [(? & ? & ? & ? & ? & ?) ->];
              try discriminate; reflexivity]).
Qed.

(** X17.  Naming only a month with 30 days or fewer while the clock shows
    the 31st raises [ValueError]: the day is taken from the clock and does
    not exist in that month.  No time is set. *)
Theorem set_system_date_time_month_end tz m calls :
  let zone := match tz with Some z => z | None => isys.UTC end in
  isys.dt_day (isys.now zone) = 31 ->
  1 <= isys.dt_year (isys.now zone) <= 9999 ->
  In m [2; 4; 6; 9; 11] ->
  exists msg,
    isys.set_system_date_time None (Some m) None None None None tz calls
      = (Raise (PyError "ValueError" msg), calls).
Proof.
  cbv zeta. intros Hday Hyear Hm. eexists.
  unfold isys.set_system_date_time.
  cbv zeta. rewrite Hday. unfold isys.datetime.
  assert (Hy : isys.between 1 (isys.dt_year (isys.now
                 match tz with Some z => z | None => isys.UTC end)) 9999
               = true) by now apply between_true.
  rewrite Hy. cbn [negb].
  assert (Hdim : isys._days_in_month (isys.dt_year (isys.now
                   match tz with Some z => z | None => isys.UTC end)) m <= 30).
  { unfold isys._days_in_month.
    simpl in Hm. destruct Hm as [<- | [<- | [<- | [<- | [<- | []]]]]];
      destruct (isys._is_leap _); simpl; lia. }
  assert (Hmon : isys.between 1 m 12 = true).
  { apply between_true. simpl in Hm. lia. }
  rewrite Hmon. cbn [negb].
  assert (Hd : isys.between 1 31 (isys._days_in_month (isys.dt_year (isys.now
                 match tz with Some z => z | None => isys.UTC end)) m)
               = false).
  { destruct (isys.between 1 31 _) eqn:Hb; [|reflexivity].
    apply between_true in Hb. lia. }
  rewrite Hd. reflexivity.
Qed.

(** X18.  Naming only the hour, in UTC, keeps the other fields of the clock
    reading: the time that is set is the clock reading, cut to whole
    seconds, moved by the difference of the hours. *)
Theorem set_system_date_time_hour_only h calls :
  let n := isys.now isys.UTC in
  isys.datetime (isys.dt_year n) (isys.dt_month n) (isys.dt_day n)
                (isys.dt_hour n) (isys.dt_minute n) (isys.dt_second n)
    = Ok n ->
  0 <= h <= 23 ->
  isys.set_system_date_time None None None (Some h) None None None calls
    = (Ok tt,
       (calls ++ [isys.timestamp n isys.UTC
                  + (h - isys.dt_hour n) * 3600])%list).
Proof.
  cbv zeta. intros Hnow Hh. unfold isys.set_system_date_time. cbv zeta.
  apply datetime_ok_iff in Hnow as [(Hy & Hm & Hd & _ & Hmi & Hs) _].
  assert (Hok : isys.datetime (isys.dt_year (isys.now isys.UTC))
                  (isys.dt_month (isys.now isys.UTC))
                  (isys.dt_day (isys.now isys.UTC)) h
                  (isys.dt_minute (isys.now isys.UTC))
                  (isys.dt_second (isys.now isys.UTC))
                = Ok (isys.mkDateTime (isys.dt_year (isys.now isys.UTC))
                        (isys.dt_month (isys.now isys.UTC))
                        (isys.dt_day (isys.now isys.UTC)) h
                        (isys.dt_minute (isys.now isys.UTC))
                        (isys.dt_second (isys.now isys.UTC))))
    by (apply datetime_ok_iff; tauto).
  rewrite Hok. unfold isys.set_system_time, isys.timestamp.
  cbn [isys.dt_year isys.dt_month isys.dt_day isys.dt_hour isys.dt_minute
       isys.dt_second isys.utcoffset isys.UTC].
  do 3 f_equal. lia.
Qed.

Lemma ymd2ord_range y m d :
  1 <= y <= 9999 -> 1 <= m <= 12 -> 1 <= d <= isys._days_in_month y m ->
  1 <= isys._ymd2ord y m d <= 3652059.
Proof.
  intros Hy Hm Hd.
  unfold isys._ymd2ord, isys._days_before_year, isys._days_before_month.
  unfold isys._days_in_month in Hd.
  assert (Hleap : isys._is_leap y = true -> y mod 4 = 0).
  { unfold isys._is_leap. rewrite andb_true_iff, Z.eqb_eq. tauto. }
  assert (Hcases : m = 1 \/ m = 2 \/ m = 3 \/ m = 4 \/ m = 5 \/ m = 6 \/
                   m = 7 \/ m = 8 \/ m = 9 \/ m = 10 \/ m = 11 \/ m = 12)
    by lia.
  destruct (isys._is_leap y);
    [specialize (Hleap eq_refl) | clear Hleap];
    repeat (destruct Hcases as [-> | Hcases]); try subst m;
    simpl in Hd |- *; Z.div_mod_to_equations; lia.
Qed.

(** X19.  Every time that is set for UTC lies between the first second of
    year 1 and the last second of year 9999, whatever fields were named and
    whatever the clock shows. *)
Theorem set_system_date_time_utc_range year month day hour minute second
    calls :
  fst (isys.set_system_date_time year month day hour minute second None
         calls) = Ok tt ->
  exists secs,
    snd (isys.set_system_date_time year month day hour minute second None
           calls) = (calls ++ [secs])%list /\
    -62135596800 <= secs <= 253402300799.
Proof.
  unfold isys.set_system_date_time. cbv zeta.
  destruct (isys.datetime _ _ _ _ _ _) as [dt | e] eqn:Hdt;
    [|discriminate].
  intros _. apply datetime_ok_iff in Hdt as [(Hy & Hm & Hd & Hh & Hmi & Hs) ->].
  eexists. split; [reflexivity|].
  unfold isys.timestamp.
  cbn [isys.dt_year isys.dt_month isys.dt_day isys.dt_hour isys.dt_minute
       isys.dt_second isys.utcoffset isys.UTC].
  pose proof (ymd2ord_range _ _ _ Hy Hm Hd). lia.
Qed.

End MoreIsys.

(** ** The methods when operations can fail *)

Section FallibleFacts.
Context {Env : Surroundings} {Base : BootLoader} {OS : Platform}.

Lemma write_config_io_cases s :
  write_config_io s = (config_result s, script_state s) \/
  exists cls msg s' ev st,
    fault ev st = Some (cls, msg, s') /\
    write_config_io s = (Raise (PyError cls msg), s').
Proof.
  unfold write_config_io, mbind, M_bind, bind.
  rewrite write_config_console_run.
  unfold config_result, script_state, written_state, config_events,
    loader_events, cmdline_events, merge_event, cmdline_text,
    loader_conf_text, root_arg, merge_script.
  fold loader_conf_path. fold cmdline_path.
  generalize (console_args s) as args. intros args.
  destruct s as [ba c co s1 s2 d f en ex tr].
  cbv beta iota zeta delta [open_io file_write_io file_close_io
    execWithRedirect_io attempt open_w file_write file_close modify gets
    raise ret set_fs emit set_boot_args boot_args console console_options
    stage1_device stage2_device disks fs environ exec_status trace foldr].
  repeat match goal with
         | |- context [fault ?e ?st] =>
             destruct (fault e st) as [[[? ?] ?]|] eqn:?; cbv beta iota zeta;
             [right; do 5 eexists; split; [eassumption | reflexivity]|]
         end.
  left.
  rewrite !lookup_insert_eq. cbn [default].
  rewrite !insert_insert_eq.
  rewrite <- !app_assoc.
  change ("" +:+ String.concat " " args +:+ " root=/dev/mapper/fedora_fedora-root")
    with (String.concat " " args +:+ " " +:+ "root=/dev/mapper/fedora_fedora-root").
  change (("" +:+ "timeout 3" +:+ nl) +:+ "#console-mode keep" +:+ nl)
    with ("timeout 3" +:+ nl +:+ "#console-mode keep" +:+ nl).
  destruct (nonzero _); reflexivity.
Qed.

Lemma write_config_io_reaches_script s :
  (forall cls msg, fst (write_config_io s) <> Raise (PyError cls msg)) ->
  write_config_io s = (config_result s, script_state s).
Proof.
  intros Hne.
  destruct (write_config_io_cases s) as [Hrun | (c & m & s' & _ & _ & _ & Hrun)];
    [exact Hrun|].
  exfalso. apply (Hne c m). now rewrite Hrun.
Qed.

Lemma write_config_io_ok s s3 :
  write_config_io s = (Ok tt, s3) ->
  s3 = script_state s /\ exec_status s merge_script = 0.
Proof.
  intros Hrun.
  destruct (write_config_io_cases s) as [Hc | (c & m & s' & _ & _ & _ & Hc)];
    rewrite Hc in Hrun; [|discriminate].
  injection Hrun as Hr Hs. split; [now symmetry|].
  now apply config_result_ok.
Qed.

Lemma write_device_map_io_cases s :
  write_device_map_io s = write_device_map s \/
  exists cls msg s',
    is_Some (fs s !! map_path) /\
    fault (EvRename map_path backup_path) s = Some (cls, msg, s') /\
    write_device_map_io s = (Raise (PyError cls msg), s').
Proof.
  unfold write_device_map_io, write_device_map, backup_path.
  fold map_path. generalize map_path as mp. intros mp.
  unfold mbind, M_bind, bind, os_access, gets.
  destruct (bool_decide (is_Some (fs s !! mp))) eqn:Hacc; [|left; reflexivity].
  apply bool_decide_eq_true_1 in Hacc.
  unfold os_rename_io, attempt.
  destruct (fault (EvRename mp (mp +:+ ".anacbak")) s) as [[[cls msg] s']|]
    eqn:Hfault; [right | left; reflexivity].
  exists cls, msg, s'. auto.
Qed.

Lemma write_io_run s :
  write_io s
    = finally_io
        match write_prologue_io s with
        | (Ok _, s0) => let (r1, s1) := install s0 in after_install_io r1 s1
        | (Raise e, s0) => (Raise e, s0)
        end.
Proof.
  unfold write_io, write_prologue_io, finally_io, after_install_io, flush_io,
    try_finally, mbind, M_bind, bind.
  destruct (write_device_map_io s) as [[[]|e] s0]; cbn [fst snd].
  2: { destruct (write_config_io s0) as [[[]|e'] s3]; [|reflexivity].
       destruct (os_sync_io s3) as [[[]|e'] s4]; [|reflexivity].
       destruct (format_sync_io physical_root s4) as [[[]|e'] s5];
         reflexivity. }
  destruct (format_sync_io physical_root s0) as [[[]|e] s0a]; cbn [fst snd].
  2: { destruct (write_config_io s0a) as [[[]|e'] s3]; [|reflexivity].
       destruct (os_sync_io s3) as [[[]|e'] s4]; [|reflexivity].
       destruct (format_sync_io physical_root s4) as [[[]|e'] s5];
         reflexivity. }
  destruct (os_sync_io s0a) as [[[]|e] s0b]; cbn [fst snd].
  2: { destruct (write_config_io s0b) as [[[]|e'] s3]; [|reflexivity].
       destruct (os_sync_io s3) as [[[]|e'] s4]; [|reflexivity].
       destruct (format_sync_io physical_root s4) as [[[]|e'] s5];
         reflexivity. }
  destruct (install s0b) as [[[]|e] s1]; cbn [fst snd].
  2: { destruct (write_config_io s1) as [[[]|e'] s3]; [|reflexivity].
       destruct (os_sync_io s3) as [[[]|e'] s4]; [|reflexivity].
       destruct (format_sync_io physical_root s4) as [[[]|e'] s5];
         reflexivity. }
  destruct (os_sync_io s1) as [[[]|e] s1a]; cbn [fst snd].
  2: { destruct (write_config_io s1a) as [[[]|e'] s3]; [|reflexivity].
       destruct (os_sync_io s3) as [[[]|e'] s4]; [|reflexivity].
       destruct (format_sync_io physical_root s4) as [[[]|e'] s5];
         reflexivity. }
  destruct (format_sync_io physical_root s1a) as [[[]|e] s2]; cbn [fst snd].
  all: destruct (write_config_io _) as [[[]|e'] s3]; [|reflexivity].
  all: destruct (os_sync_io s3) as [[[]|e''] s4]; [|reflexivity].
  all: destruct (format_sync_io physical_root s4) as [[[]|e3] s5];
         reflexivity.
Qed.

Lemma flush_io_no_fault s :
  fault EvOsSync s = None ->
  fault (EvFormatSync (stage2_device s) physical_root) (emit EvOsSync s)
    = None ->
  flush_io s = (Ok tt, flushed s).
Proof.
  intros Hsync Hformat.
  unfold flush_io, mbind, M_bind, bind, os_sync_io, format_sync_io, attempt.
  rewrite Hsync. unfold os_sync at 1. unfold modify at 1.
  cbn [stage2_device emit]. rewrite Hformat. reflexivity.
Qed.

(** C7, as amended.  For every call of [write_config] that does not end in
    an error of the operating system: when the merge script is started the
    loader descriptor holds the two fixed lines, each ended by a newline,
    and the command line file holds the accumulated boot arguments joined by
    single spaces, followed by one space and the fixed root argument; the
    files afterwards are those the script leaves from there. *)
Theorem write_config_io_roundtrip s :
  (forall cls msg, fst (write_config_io s) <> Raise (PyError cls msg)) ->
  let started := written_state s in
  fs started !! loader_conf_path
    = Some ("timeout 3" +:+ nl +:+ "#console-mode keep" +:+ nl) /\
  fs started !! cmdline_path
    = Some (String.concat " " (boot_args started) +:+ " " +:+ root_arg) /\
  boot_args started = console_args s /\
  fs (snd (write_config_io s))
    = program_effect "/usr/sbin/updateloaderentries.sh" [" "] system_root
                     (fs started) /\
  trace (snd (write_config_io s))
    = (trace started
         ++ [EvExec "/usr/sbin/updateloaderentries.sh" [" "] system_root
                    (environ s)])%list.
Proof.
  intros Hne. cbv zeta. rewrite (write_config_io_reaches_script s Hne).
  cbn [snd written_state fs boot_args].
  split; [|split; [|split; [|split]; reflexivity]].
  - rewrite lookup_insert_ne by (apply not_eq_sym, loader_cmdline_ne).
    apply lookup_insert_eq.
  - apply lookup_insert_eq.
Qed.

(** X1.  When [write_config] does not end in an error of the operating
    system, the files it hands to the merge script differ from the files
    before the call at the loader descriptor and the command line file
    only, the files afterwards are those the script leaves, and of the
    attributes of the object only the accumulator can have changed. *)
Theorem write_config_io_frame s p :
  (forall cls msg, fst (write_config_io s) <> Raise (PyError cls msg)) ->
  p <> loader_conf_path ->
  p <> cmdline_path ->
  let s' := snd (write_config_io s) in
  fs (written_state s) !! p = fs s !! p /\
  fs s' = program_effect "/usr/sbin/updateloaderentries.sh" [" "] system_root
                         (fs (written_state s)) /\
  console s' = console s /\ console_options s' = console_options s /\
  stage1_device s' = stage1_device s /\ stage2_device s' = stage2_device s /\
  disks s' = disks s /\ environ s' = environ s.
Proof.
  intros Hne Hl Hc. cbv zeta. rewrite (write_config_io_reaches_script s Hne).
  cbn [snd script_state written_state emit set_fs fs console console_options
       stage1_device stage2_device disks environ].
  rewrite !lookup_insert_ne by congruence. repeat split.
Qed.

(** X5.  Whenever [write_device_map] returns, it has left every file other
    than the device map and its backup, the accumulator, the console, the
    stage devices and the environment as they were; it raises only when a
    file is in place and the rename fails. *)
Theorem write_device_map_io_frame s p :
  fst (write_device_map_io s) = Ok tt ->
  p <> map_path ->
  p <> backup_path ->
  let s' := snd (write_device_map_io s) in
  fs s' !! p = fs s !! p /\
  boot_args s' = boot_args s /\ console s' = console s /\
  stage1_device s' = stage1_device s /\ stage2_device s' = stage2_device s /\
  environ s' = environ s.
Proof.
  intros Hok Hm Hb. cbv zeta.
  destruct (write_device_map_io_cases s) as [Hrun | (c & m & s' & _ & _ & Hrun)];
    rewrite Hrun in *; [|discriminate].
  rewrite write_device_map_run.
  cbn [snd device_map_state fs boot_args console stage1_device stage2_device
       environ].
  split; [|repeat split].
  destruct (fs s !! map_path); [|reflexivity].
  rewrite lookup_insert_ne by congruence.
  now rewrite lookup_delete_ne by congruence.
Qed.

(** C1, as amended.  Once the installer has been called, whatever its
    outcome [r1], [write_config] runs next, from the state the [try] block
    left.  When [write_config] raises, its exception leaves [write] and no
    sync follows.  When it returns, both files were written, the merge
    script exited with status 0 and the two final syncs are attempted; when
    they are carried out [write] ends the way the [try] block ended, which
    for a failed installer is the installer's own exception. *)
Theorem write_io_config_always_runs s s0 r1 s1 r3 s3 :
  write_prologue_io s = (Ok tt, s0) ->
  install s0 = (r1, s1) ->
  write_config_io (snd (after_install_io r1 s1)) = (r3, s3) ->
  let body := after_install_io r1 s1 in
  (forall e1, r1 = Raise e1 -> body = (Raise e1, s1)) /\
  (forall e, r3 = Raise e -> write_io s = (Raise e, s3)) /\
  (r3 = Ok tt ->
     s3 = script_state (snd body) /\
     fs (written_state (snd body)) !! loader_conf_path
       = Some loader_conf_text /\
     fs (written_state (snd body)) !! cmdline_path
       = Some (cmdline_text (console_args (snd body))) /\
     fs s3 = program_effect "/usr/sbin/updateloaderentries.sh" [" "]
                            system_root (fs (written_state (snd body))) /\
     exec_status (snd body) "/usr/sbin/updateloaderentries.sh" = 0 /\
     write_io s = match flush_io s3 with
                  | (Ok _, s4) => (fst body, s4)
                  | (Raise e, s4) => (Raise e, s4)
                  end /\
     (fault EvOsSync s3 = None ->
      fault (EvFormatSync (stage2_device s3) physical_root)
            (emit EvOsSync s3) = None ->
      write_io s = (fst body, flushed s3))).
Proof.
  intros Hpro Hinst Hcfg. cbv zeta.
  assert (Hrun : write_io s = finally_io (after_install_io r1 s1))
    by (rewrite write_io_run, Hpro, Hinst; reflexivity).
  rewrite Hrun. unfold finally_io. rewrite Hcfg.
  split; [|split].
  - intros e1 ->. reflexivity.
  - intros e ->. reflexivity.
  - intros ->. destruct (write_config_io_ok _ _ Hcfg) as [Hs3 Hrc].
    split; [exact Hs3|].
    split.
    { cbn [written_state fs].
      rewrite lookup_insert_ne by (apply not_eq_sym, loader_cmdline_ne).
      apply lookup_insert_eq. }
    split; [apply lookup_insert_eq|].
    split; [rewrite Hs3; reflexivity|].
    split; [exact Hrc|]. split; [reflexivity|].
    intros Hsync Hformat. now rewrite (flush_io_no_fault _ Hsync Hformat).
Qed.

(** X11.  [write] returns normally only if the statements before the
    installer returned, the installer returned normally, the two syncs after
    it returned, and [write_config] returned, having found the exit status
    0 for the merge script. *)
Theorem write_io_ok_only_if s :
  fst (write_io s) = Ok tt ->
  exists s0 s1 s2,
    write_prologue_io s = (Ok tt, s0) /\
    install s0 = (Ok tt, s1) /\
    after_install_io (Ok tt) s1 = (Ok tt, s2) /\
    fst (write_config_io s2) = Ok tt /\
    exec_status s2 "/usr/sbin/updateloaderentries.sh" = 0.
Proof.
  rewrite write_io_run.
  destruct (write_prologue_io s) as [[[]|e] s0] eqn:Hpro.
  2: { unfold finally_io. cbn [fst snd].
       destruct (write_config_io s0) as [[[]|e'] s3]; [|discriminate].
       destruct (flush_io s3) as [[[]|e'] s4]; discriminate. }
  destruct (install s0) as [[[]|e] s1] eqn:Hinst.
  2: { unfold finally_io, after_install_io. cbn [fst snd].
       destruct (write_config_io s1) as [[[]|e'] s3]; [|discriminate].
       destruct (flush_io s3) as [[[]|e'] s4]; discriminate. }
  destruct (after_install_io (Ok tt) s1) as [[[]|e] s2] eqn:Hafter.
  2: { unfold finally_io. cbn [fst snd].
       destruct (write_config_io s2) as [[[]|e'] s3]; [|discriminate].
       destruct (flush_io s3) as [[[]|e'] s4]; discriminate. }
  unfold finally_io. cbn [fst snd].
  destruct (write_config_io s2) as [[[]|e'] s3] eqn:Hcfg; [|discriminate].
  intros _. exists s0, s1, s2.
  destruct (write_config_io_ok _ _ Hcfg) as [_ Hrc].
  split; [reflexivity|]. split; [exact Hinst|]. split; [exact Hafter|].
  split; [now rewrite Hcfg | exact Hrc].
Qed.

End FallibleFacts.

(** On the benign platform the methods are those of the first part. *)

Section Benign.
Context {Env : Surroundings} {Base : BootLoader}.

Lemma set_fs_same s : set_fs (fs s) s = s.
Proof. now destruct s. Qed.

Lemma execWithRedirect_benign command argv root env_prune s :
  @execWithRedirect_io benign command argv root env_prune s
    = execWithRedirect command argv root env_prune s.
Proof.
  unfold execWithRedirect_io, execWithRedirect, attempt.
  cbn [fault program_effect benign]. now rewrite set_fs_same.
Qed.

Lemma installbootmgr_benign args s :
  @installbootmgr_io Env benign args s = installbootmgr args s.
Proof.
  unfold installbootmgr_io, installbootmgr, mbind, M_bind, bind.
  now rewrite execWithRedirect_benign.
Qed.

Lemma write_device_map_benign s :
  @write_device_map_io Env Base benign s = write_device_map s.
Proof.
  destruct (@write_device_map_io_cases Env Base benign s)
    as [Hrun | (c & m & s' & _ & Hfault & _)]; [exact Hrun | discriminate].
Qed.

Lemma write_config_io_no_fault (OS : Platform) s :
  (forall ev st, @fault OS ev st = None) ->
  @write_config_io Env OS s = (config_result s, @script_state Env OS s).
Proof.
  intros Hnone.
  destruct (@write_config_io_cases Env OS s)
    as [Hrun | (c & m & s' & ev & st & Hfault & _)]; [exact Hrun|].
  rewrite Hnone in Hfault. discriminate.
Qed.

Lemma write_config_benign s :
  @write_config_io Env benign s = write_config s.
Proof.
  rewrite (write_config_io_no_fault benign) by reflexivity.
  rewrite write_config_run. f_equal.
  unfold script_state, config_state, config_events.
  cbn [program_effect benign]. rewrite set_fs_same.
  unfold emit, written_state.
  cbn [boot_args console console_options stage1_device stage2_device disks
       fs environ exec_status trace].
  now rewrite <- !app_assoc.
Qed.

Lemma bind_ext {A B} (m1 m2 : M A) (k1 k2 : A -> M B) s :
  m1 s = m2 s ->
  (forall a s', k1 a s' = k2 a s') ->
  bind m1 k1 s = bind m2 k2 s.
Proof.
  intros Hm Hk. unfold bind. rewrite Hm.
  destruct (m2 s) as [[a|e] s']; [apply Hk | reflexivity].
Qed.

Lemma try_finally_ext {A} (body1 body2 : M A) (fin1 fin2 : M unit) s :
  body1 s = body2 s ->
  (forall s', fin1 s' = fin2 s') ->
  try_finally body1 fin1 s = try_finally body2 fin2 s.
Proof.
  intros Hb Hf. unfold try_finally. rewrite Hb.
  destruct (body2 s) as [r s1]. now rewrite Hf.
Qed.

Lemma write_benign s : @write_io Env Base benign s = write s.
Proof.
  unfold write_io, write. apply try_finally_ext.
  - apply bind_ext; [apply write_device_map_benign | reflexivity].
  - intros s'. apply bind_ext; [apply write_config_benign | reflexivity].
Qed.

End Benign.


(** ** The model at work on the concrete installation *)

Import Demo.

(** C2.  With a disk as stage1 device and a stage2 device that spans that
    disk and a second one, [install_targets] returns the primary pair alone:
    the second disk, which is neither of the chosen devices, is no stage1
    candidate of any target. *)
Theorem install_targets_no_redundancy :
  let s := state0 0 0 in
  is_disk (stage1_device s) = true /\
  disks_of (stage2_device s) = ["sda"; "sdb"] /\
  ~ In "sdb" [stage1_device s; stage2_device s] /\
  install_targets s = [("sda", "md0")] /\
  ~ In "sdb" (map fst (install_targets s)).
Proof.
  cbv zeta. split; [reflexivity|]. split; [reflexivity|].
  split; [vm_compute; intros [Heq | [Heq | []]]; discriminate|].
  split; [reflexivity|].
  vm_compute. intros [Heq | []]. discriminate.
Qed.

(** C5.  With a device map file in place and two disks to describe,
    [write_device_map] moves the file to the backup name and returns: the
    old content is kept under the backup name, and no file exists at the
    device map path although the filtered device list is not empty. *)
Theorem write_device_map_leaves_no_map :
  let s := state0 0 0 in
  let s' := snd (write_device_map s) in
  fs s !! map_path = Some "(hd0) /dev/sda" /\
  map_devices s = ["sda"; "sdb"] /\
  fst (write_device_map s) = Ok tt /\
  fs s' !! (map_path +:+ ".anacbak") = Some "(hd0) /dev/sda" /\
  fs s' !! map_path = None.
Proof.
  cbv zeta.
  assert (Hmp : fs (state0 0 0) !! map_path = Some "(hd0) /dev/sda")
    by (vm_compute; reflexivity).
  destruct (write_device_map_backup _ _ Hmp) as [Hbak Hgone].
  split; [exact Hmp|]. split; [vm_compute; reflexivity|].
  split; [now rewrite write_device_map_run|].
  split; [exact Hbak | exact Hgone].
Qed.

Lemma write_config_empty_args_witness :
  console_args (state0 0 0) = [] /\
  fs (snd (write_config (state0 0 0))) !! cmdline_path
    = Some " root=/dev/mapper/fedora_fedora-root".
Proof.
  assert (Hargs : console_args (state0 0 0) = []) by reflexivity.
  split; [exact Hargs|].
  exact (write_config_empty_args (state0 0 0) Hargs).
Defined.

(** C6 fails as stated: with an empty accumulator the file does not hold
    the bare root argument, its first character is a space. *)
Lemma write_config_empty_args_counterexample :
  boot_args (state0 0 0) = [] /\
  console_args (state0 0 0) = [] /\
  fs (snd (write_config (state0 0 0))) !! cmdline_path <> Some root_arg /\
  (String.get 0 <$> fs (snd (write_config (state0 0 0))) !! cmdline_path)
    = Some (Some " "%char).
Proof.
  split; [reflexivity|]. split; [reflexivity|].
  split; [vm_compute; discriminate | vm_compute; reflexivity].
Qed.

Lemma write_config_not_atomic_witness :
  fs (state0 0 1) !! loader_conf_path = None /\
  fs (state0 0 1) !! cmdline_path = None /\
  fst (write_config (state0 0 1))
    = Raise (BootLoaderError "failed to write boot loader configuration") /\
  fs (snd (write_config (state0 0 1))) !! loader_conf_path
    = Some loader_conf_text /\
  fs (snd (write_config (state0 0 1))) !! cmdline_path
    = Some (cmdline_text []).
Proof.
  assert (Hr : fst (write_config (state0 0 1))
               = Raise (BootLoaderError
                          "failed to write boot loader configuration"))
    by (vm_compute; reflexivity).
  destruct (write_config_not_atomic (state0 0 1) Hr) as [Hl Hc].
  split; [vm_compute; reflexivity|]. split; [vm_compute; reflexivity|].
  split; [exact Hr|]. split; [exact Hl | exact Hc].
Defined.

(** C1 fails as stated.  When the installer succeeds and the merge script
    exits with status 1, [write] raises straight out of [write_config]: the
    run of the script is the last effect and no sync follows it.  When the
    installer fails as well, the exception that leaves [write] is not the
    installer's. *)
Lemma write_final_sync_counterexample :
  fst (install (snd (write_prologue (state0 0 1)))) = Ok tt /\
  fst (write (state0 0 1))
    = Raise (BootLoaderError "failed to write boot loader configuration") /\
  last (trace (snd (write (state0 0 1))))
    = Some (EvExec "/usr/sbin/updateloaderentries.sh" [" "] "/mnt/sysroot"
                   (environ (state0 0 1))) /\
  ends_with_flush (trace (snd (write (state0 0 1)))) = false /\
  fst (install (snd (write_prologue (state0 1 1))))
    = Raise (BootLoaderError "boot loader install failed") /\
  fst (write (state0 1 1))
    <> Raise (BootLoaderError "boot loader install failed").
Proof.
  repeat split; try (vm_compute; reflexivity).
  vm_compute. discriminate.
Qed.

Lemma write_config_error_masks_witness :
  fst (install (snd (write_prologue (state0 1 1))))
    = Raise (BootLoaderError "boot loader install failed") /\
  fst (write (state0 1 1))
    = Raise (BootLoaderError "failed to write boot loader configuration").
Proof.
  assert (Hinst : install (snd (write_prologue (state0 1 1)))
                  = (Raise (BootLoaderError "boot loader install failed"),
                     snd (install (snd (write_prologue (state0 1 1))))))
    by (vm_compute; reflexivity).
  assert (Hcfg : write_config
                   (snd (install (snd (write_prologue (state0 1 1)))))
                 = (Raise (BootLoaderError
                             "failed to write boot loader configuration"),
                    snd (write_config
                      (snd (install (snd (write_prologue (state0 1 1))))))))
    by (vm_compute; reflexivity).
  split; [now rewrite Hinst|].
  now rewrite (write_config_error_masks _ _ _ _ _ Hinst Hcfg).
Defined.

Lemma write_flush_bracket_witness :
  fst (install (snd (write_prologue (state0 0 0)))) = Ok tt /\
  trace (snd (write (state0 0 0)))
    = [EvRename "/mnt/sysroot/boot/efi/loader/device.map"
                "/mnt/sysroot/boot/efi/loader/device.map.anacbak";
       EvFormatSync "md0" "/mnt/sysimage";
       EvOsSync;
       EvExec "bootctl" ["install"; "--esp-path=/boot/efi"] "/mnt/sysroot"
              {[ "PATH" := "/usr/sbin" ]};
       EvOsSync;
       EvFormatSync "md0" "/mnt/sysimage";
       EvOpen "/mnt/sysroot/boot/efi/loader/loader.conf";
       EvWrite "/mnt/sysroot/boot/efi/loader/loader.conf" ("timeout 3" +:+ nl);
       EvWrite "/mnt/sysroot/boot/efi/loader/loader.conf"
               ("#console-mode keep" +:+ nl);
       EvClose "/mnt/sysroot/boot/efi/loader/loader.conf";
       EvOpen "/mnt/sysroot/etc/kernel/cmdline";
       EvWrite "/mnt/sysroot/etc/kernel/cmdline"
               " root=/dev/mapper/fedora_fedora-root";
       EvClose "/mnt/sysroot/etc/kernel/cmdline";
       EvExec "/usr/sbin/updateloaderentries.sh" [" "] "/mnt/sysroot"
              (environ (state0 0 0));
       EvOsSync;
       EvFormatSync "md0" "/mnt/sysimage"].
Proof.
  assert (Hinst : install (snd (write_prologue (state0 0 0)))
                  = (Ok tt, snd (install (snd (write_prologue (state0 0 0))))))
    by (vm_compute; reflexivity).
  destruct (write_flush_bracket _ _ _ Hinst) as (_ & _ & Htrace).
  split; [now rewrite Hinst|].
  rewrite Htrace. vm_compute. reflexivity.
Defined.

(** C4 fails as stated.  When the installer and the merge script both exit
    with status 1, the only flush events of the whole run are the two that
    precede the installer: none follows the installer, none follows
    [write_config]. *)
Lemma write_flush_bracket_counterexample :
  fst (write (state0 1 1))
    = Raise (BootLoaderError "failed to write boot loader configuration") /\
  List.filter is_flush (trace (snd (write (state0 1 1))))
    = [EvFormatSync "md0" "/mnt/sysimage"; EvOsSync] /\
  existsb is_flush (after_exec "bootctl" (trace (snd (write (state0 1 1)))))
    = false /\
  after_exec "/usr/sbin/updateloaderentries.sh"
             (trace (snd (write (state0 1 1)))) = [].
Proof. repeat split; vm_compute; reflexivity. Qed.

(** ** The further properties on concrete situations *)

Import Scenes.

Lemma write_config_cmdline_tokens_witness :
  split " " <$> fs (snd (write_config state_console)) !! cmdline_path
    = Some ["ro"; "quiet"; "console=ttyS0,115200n8";
            "root=/dev/mapper/fedora_fedora-root"].
Proof.
  assert (Hne : console_args state_console <> []) by (vm_compute; discriminate).
  assert (Hall : Forall (fun t => contains " " t = false)
                        (console_args state_console))
    by (vm_compute; repeat constructor).
  rewrite (write_config_cmdline_tokens state_console Hne Hall).
  reflexivity.
Defined.

Lemma write_config_without_console_witness :
  boot_args (snd (write_config state_options_only)) = ["ro"] /\
  fs (snd (write_config state_options_only)) !! cmdline_path
    = Some "ro root=/dev/mapper/fedora_fedora-root".
Proof.
  assert (Hc : truthy (console state_options_only) = false) by reflexivity.
  destruct (write_config_without_console state_options_only Hc) as [Ha Hf].
  split; [exact Ha | exact Hf].
Defined.

Lemma write_config_console_token_witness :
  In "console=ttyS0,115200n8" (boot_args (snd (write_config state_console))) /\
  In "quiet" (boot_args (snd (write_config state_console))).
Proof.
  assert (Hc : console state_console = Some "ttyS0") by reflexivity.
  assert (Hne : "ttyS0" <> "") by discriminate.
  destruct (write_config_console_token state_console "ttyS0" Hc Hne)
    as (Htok & Hold & _).
  split; [exact Htok | apply Hold; simpl; tauto].
Defined.

Lemma write_device_map_no_file_witness :
  fs state_console !! map_path = None /\
  fs (snd (write_device_map state_console)) = fs state_console /\
  trace (snd (write_device_map state_console)) = [].
Proof.
  assert (Hmp : fs state_console !! map_path = None)
    by (vm_compute; reflexivity).
  split; [exact Hmp|]. exact (write_device_map_no_file state_console Hmp).
Defined.

Lemma write_device_map_nodup_witness :
  disks (snd (write_device_map (state0 0 0))) = ["sda"; "sdb"] /\
  NoDup (disks (snd (write_device_map (state0 0 0)))).
Proof.
  assert (Hnd : NoDup (disks (state0 0 0)))
    by (apply NoDup_singleton).
  split; [vm_compute; reflexivity|].
  exact (write_device_map_nodup (state0 0 0) Hnd).
Defined.

Lemma write_device_map_replaces_backup_witness :
  fs state_backup !! backup_path = Some "old" /\
  fs (snd (write_device_map state_backup)) !! backup_path = Some "new" /\
  fs (snd (write_device_map state_backup)) !! map_path = None.
Proof.
  assert (Hmp : fs state_backup !! map_path = Some "new")
    by (vm_compute; reflexivity).
  assert (Hbk : fs state_backup !! backup_path = Some "old")
    by (vm_compute; reflexivity).
  assert (Hne : "new" <> "old") by discriminate.
  destruct (write_device_map_replaces_backup state_backup _ _ Hmp Hbk Hne)
    as (Hb & _ & Hm).
  split; [exact Hbk|]. split; [exact Hb | exact Hm].
Defined.

Lemma has_windows_restores_witness :
  fst (has_windows ["sdc"; "sda1"] checked0) = Ok true /\
  errors (snd (has_windows ["sdc"; "sda1"] checked0)) = ["no boot disk"] /\
  warnings (snd (has_windows ["sdc"; "sda1"] checked0)) = ["small ESP"].
Proof.
  assert (Hr : fst (has_windows ["sdc"; "sda1"] checked0) = Ok true)
    by reflexivity.
  split; [exact Hr|].
  exact (has_windows_restores _ _ _ Hr).
Defined.

Lemma has_windows_raise_witness :
  @has_windows failing_check ["sda1"; "loop0"; "sdb1"] checked0
    = (Raise (PyError "DeviceError" "loop0"),
       mkChecked ["no boot disk"; "probing loop0"] ["small ESP"] (state0 0 0)).
Proof.
  apply (@has_windows_raise failing_check ["sda1"] "loop0" ["sdb1"]
           checked0 [] checked0); reflexivity.
Defined.

Lemma has_windows_exists_witness :
  fst (has_windows ["sdc"; "sdb1"] checked0) = Ok true /\
  fst (has_windows [] checked0) = Ok false.
Proof.
  assert (Hpure : forall d v0,
            fst (super_is_valid_stage2_device d false true v0)
            = Ok (String.eqb d "sda1" || String.eqb d "sdb1")).
  { intros d v0. cbn [super_is_valid_stage2_device scan_check].
    destruct (String.eqb d "sda1" || String.eqb d "sdb1"); reflexivity. }
  split.
  - exact (has_windows_exists _ ["sdc"; "sdb1"] checked0 Hpure).
  - exact (has_windows_exists _ [] checked0 Hpure).
Defined.

Lemma set_system_date_time_month_end_witness :
  exists msg,
    isys.set_system_date_time None (Some 2) None None None None None [0]
      = (Raise (PyError "ValueError" msg), [0]).
Proof.
  apply (set_system_date_time_month_end None 2 [0]).
  - reflexivity.
  - cbn. lia.
  - simpl. tauto.
Defined.

Lemma set_system_date_time_hour_only_witness :
  isys.set_system_date_time None None None (Some 5) None None None []
    = (Ok tt, [1706745598 - 18 * 3600]).
Proof.
  assert (Hnow : isys.datetime 2024 1 31 23 59 58
                 = Ok (isys.now isys.UTC)) by reflexivity.
  assert (Hh : 0 <= 5 <= 23) by lia.
  rewrite (@set_system_date_time_hour_only clock_jan31 5 [] Hnow Hh).
  vm_compute. reflexivity.
Defined.

Lemma set_system_date_time_utc_range_witness :
  exists secs,
    snd (isys.set_system_date_time (Some 1970) (Some 1) (Some 1) (Some 0)
           (Some 0) (Some 0) None []) = [secs] /\
    -62135596800 <= secs <= 253402300799.
Proof.
  apply (set_system_date_time_utc_range (Some 1970) (Some 1) (Some 1)
           (Some 0) (Some 0) (Some 0) []).
  reflexivity.
Defined.

(** ** Runs in which something fails or a program changes files *)

Import Outages.

(** C7 fails as stated: when the command line file cannot be opened,
    [write_config] raises the error of [open] and no such file exists
    afterwards, although the loader descriptor has been written. *)
Lemma write_config_io_roundtrip_counterexample :
  fs (state0 0 0) !! cmdline_path = None /\
  fst (write_config_io (OS := no_kernel_dir) (state0 0 0))
    = Raise (PyError "FileNotFoundError" "/mnt/sysroot/etc/kernel/cmdline") /\
  fs (snd (write_config_io (OS := no_kernel_dir) (state0 0 0)))
     !! cmdline_path = None /\
  fs (snd (write_config_io (OS := no_kernel_dir) (state0 0 0)))
     !! loader_conf_path = Some loader_conf_text.
Proof. repeat split; vm_compute; reflexivity. Qed.

Lemma write_config_io_roundtrip_witness :
  fst (write_config_io (OS := merging) state_console) = Ok tt /\
  fs (written_state state_console) !! cmdline_path
    = Some "ro quiet console=ttyS0,115200n8 root=/dev/mapper/fedora_fedora-root" /\
  fs (snd (write_config_io (OS := merging) state_console))
     !! "/mnt/sysroot/boot/efi/loader/entries/fedora.conf"
    = Some "options ro".
Proof.
  assert (Hr : fst (write_config_io (OS := merging) state_console) = Ok tt)
    by (vm_compute; reflexivity).
  assert (Hne : forall cls msg,
            fst (write_config_io (OS := merging) state_console)
            <> Raise (PyError cls msg))
    by (intros cls msg; rewrite Hr; discriminate).
  destruct (write_config_io_roundtrip (OS := merging) state_console Hne)
    as (_ & Hc & _ & Hfs & _).
  split; [exact Hr|]. split.
  - rewrite Hc. vm_compute. reflexivity.
  - rewrite Hfs. vm_compute. reflexivity.
Defined.

Lemma write_config_io_frame_witness :
  fs (written_state state_console) !! "/mnt/sysroot/etc/fstab"
    = Some "/dev/sda1 /" /\
  fs (snd (write_config_io (OS := merging) state_console))
     !! "/mnt/sysroot/boot/efi/loader/entries/fedora.conf"
    = Some "options ro" /\
  console (snd (write_config_io (OS := merging) state_console))
    = Some "ttyS0".
Proof.
  assert (Hr : fst (write_config_io (OS := merging) state_console) = Ok tt)
    by (vm_compute; reflexivity).
  assert (Hne : forall cls msg,
            fst (write_config_io (OS := merging) state_console)
            <> Raise (PyError cls msg))
    by (intros cls msg; rewrite Hr; discriminate).
  assert (Hl : "/mnt/sysroot/etc/fstab" <> loader_conf_path)
    by (vm_compute; discriminate).
  assert (Hc : "/mnt/sysroot/etc/fstab" <> cmdline_path)
    by (vm_compute; discriminate).
  destruct (write_config_io_frame (OS := merging) state_console _ Hne Hl Hc)
    as (Hp & Hfs & Hcon & _).
  split; [rewrite Hp; reflexivity|]. split.
  - rewrite Hfs. vm_compute. reflexivity.
  - rewrite Hcon. reflexivity.
Defined.

Lemma write_device_map_io_frame_witness :
  fst (write_device_map_io (OS := merging) (state0 0 0)) = Ok tt /\
  fs (snd (write_device_map_io (OS := merging) state_console))
     !! "/mnt/sysroot/etc/fstab" = Some "/dev/sda1 /" /\
  fst (write_device_map_io (OS := backup_is_directory) (state0 0 0))
    = Raise (PyError "IsADirectoryError"
                     "/mnt/sysroot/boot/efi/loader/device.map.anacbak").
Proof.
  assert (Hok : fst (write_device_map_io (OS := merging) state_console)
                = Ok tt) by (vm_compute; reflexivity).
  assert (Hm : "/mnt/sysroot/etc/fstab" <> map_path)
    by (vm_compute; discriminate).
  assert (Hb : "/mnt/sysroot/etc/fstab" <> backup_path)
    by (vm_compute; discriminate).
  destruct (write_device_map_io_frame (OS := merging) state_console _
              Hok Hm Hb) as (Hfs & _).
  split; [vm_compute; reflexivity|].
  split; [rewrite Hfs; reflexivity | vm_compute; reflexivity].
Defined.

Lemma write_io_config_always_runs_witness :
  fst (install (snd (write_prologue_io (OS := merging) (state0 1 0))))
    = Raise (BootLoaderError "boot loader install failed") /\
  fst (write_io (OS := merging) (state0 1 0))
    = Raise (BootLoaderError "boot loader install failed") /\
  ends_with_flush (trace (snd (write_io (OS := merging) (state0 1 0))))
    = true /\
  fs (snd (write_io (OS := merging) (state0 1 0))) !! cmdline_path
    = Some (cmdline_text []).
Proof.
  pose (s0 := snd (write_prologue_io (OS := merging) (state0 1 0))).
  pose (s1 := snd (install s0)).
  pose (s3 := snd (write_config_io (OS := merging) s1)).
  assert (Hpro : write_prologue_io (OS := merging) (state0 1 0) = (Ok tt, s0))
    by (vm_compute; reflexivity).
  assert (Hinst : install s0
                  = (Raise (BootLoaderError "boot loader install failed"), s1))
    by (vm_compute; reflexivity).
  assert (Hcfg : write_config_io (OS := merging)
                   (snd (after_install_io (OS := merging)
                           (Raise (BootLoaderError
                                     "boot loader install failed")) s1))
                 = (Ok tt, s3))
    by (vm_compute; reflexivity).
  destruct (write_io_config_always_runs (OS := merging) _ _ _ _ _ _
              Hpro Hinst Hcfg) as (_ & _ & Hok).
  destruct (Hok eq_refl) as (_ & _ & _ & _ & _ & _ & Hrun).
  rewrite (Hrun eq_refl eq_refl).
  split; [exact (f_equal fst Hinst)|]. split; [reflexivity|].
  split; vm_compute; reflexivity.
Defined.

Lemma write_io_ok_only_if_witness :
  exists s0 s1 s2,
    write_prologue_io (OS := merging) (state0 0 0) = (Ok tt, s0) /\
    install s0 = (Ok tt, s1) /\
    after_install_io (OS := merging) (Ok tt) s1 = (Ok tt, s2) /\
    fst (write_config_io (OS := merging) s2) = Ok tt /\
    exec_status s2 "/usr/sbin/updateloaderentries.sh" = 0.
Proof.
  apply (write_io_ok_only_if (OS := merging) (state0 0 0)).
  vm_compute. reflexivity.
Defined.
